(** * property-search: the valuation engine

    A shallow embedding of [src/valuation.py], with the parts of
    [src/search.py] and [src/cache.py] it relies on, and the properties of the
    specification proved (or refuted) over it.

    Conventions of the embedding.
    - Python numbers ([int] and [float]) are rationals [Q] with exact
      arithmetic; an [int]-typed parameter is a [Z].  Rounding of IEEE
      doubles, overflow, NaN and infinities of the arithmetic are outside the
      model; the NaN that [griddata] hands back for a point outside the
      triangulation is the [None] of an option.
    - A Python exception is a value of [exn]; a call that may raise returns a
      [result].
    - Objects that are mutated and shared (the [SearchParameters] argument,
      the Redis cache, the logger history) live in a [World] that is threaded
      through the stateful functions.
    - numpy, scipy, json and redis are libraries, not code of the
      repository: each is modelled by a definition whose comment says which
      documented behaviour it stands for. *)

From Stdlib Require Import ZArith QArith Qround Qabs Qpower String Ascii List Bool Lia Lqa.
From Stdlib Require Import Permutation Sorted DecimalString DecimalZ DecimalPos.
From stdpp Require Import gmap strings.
Import ListNotations.

Local Open Scope string_scope.
Local Set Warnings "-register-all".
#[local] Arguments String.append !_ _ / : simpl nomatch.

(* ===================================================================== *)
(** * Exceptions and results *)
(* ===================================================================== *)

(** The exception classes that can travel through the engine.
    [JSONDecodeError] is a subclass of [ValueError]; [QhullError] (scipy) is a
    subclass of [RuntimeError]; [ConnectionError] is the redis client's. *)
Inductive exn : Type :=
  | ValueError (msg : string)
  | JSONDecodeError (msg : string)
  | TypeError (msg : string)
  | ZeroDivisionError (msg : string)
  | QhullError (msg : string)
  | ConnectionError (msg : string)
  | HTTPError (msg : string).

(** [isinstance(e, ValueError)], as an [except ValueError] clause tests it. *)
Definition is_ValueError (e : exn) : bool :=
  match e with
  | ValueError _ | JSONDecodeError _ => true
  | _ => false
  end.

(** [str(e)] *)
Definition exn_str (e : exn) : string :=
  match e with
  | ValueError m | JSONDecodeError m | TypeError m | ZeroDivisionError m
  | QhullError m | ConnectionError m | HTTPError m => m
  end.

Inductive result (A : Type) : Type :=
  | Ok (a : A)
  | Raise (e : exn).
Arguments Ok {A} a.
Arguments Raise {A} e.

Definition rbind {A B : Type} (m : result A) (k : A -> result B) : result B :=
  match m with
  | Ok a => k a
  | Raise e => Raise e
  end.

Notation "'let?' x ':=' m 'in' k" := (rbind m (fun x => k))
  (at level 10, x name, m at level 100, k at level 200).

(* ===================================================================== *)
(** * Numbers *)
(* ===================================================================== *)

(** [math.pow(x, n)] for an integer exponent: a zero base with a negative
    exponent is a [ValueError] ("math domain error"). *)
Definition math_pow (x : Q) (n : Z) : result Q :=
  if Qeq_bool x 0 && (n <? 0)%Z
  then Raise (ValueError "math domain error")
  else Ok (Qpower x n).

(** [a / b] on floats: a zero divisor raises. *)
Definition py_div (a b : Q) : result Q :=
  if Qeq_bool b 0
  then Raise (ZeroDivisionError "float division by zero")
  else Ok (a / b)%Q.

(** Rounding to the nearest integer, ties to the even one. *)
Definition round_half_even (x : Q) : Z :=
  let f := Qfloor x in
  let d := (x - inject_Z f)%Q in
  match Qcompare d (1 # 2) with
  | Lt => f
  | Gt => (f + 1)%Z
  | Eq => if Z.even f then f else (f + 1)%Z
  end.

(** [round(x, 2)] *)
Definition round2 (x : Q) : Q := round_half_even (x * 100) # 100.

(** [max(a, b)] and [min(a, b)] of Python: the first argument wins a tie. *)
Definition py_max (a b : Q) : Q := if Qle_bool b a then a else b.
Definition py_min (a b : Q) : Q := if Qle_bool a b then a else b.

(** [max(xs)] and [min(xs)] over a non-empty sequence. *)
Definition max_list (x : Q) (xs : list Q) : Q := fold_left py_max xs x.
Definition min_list (x : Q) (xs : list Q) : Q := fold_left py_min xs x.

(** [sum(xs)] *)
Definition sum_list (xs : list Q) : Q := fold_left Qplus xs (0 : Q).

(* ===================================================================== *)
(** * Library model: Python's [json] module *)
(* ===================================================================== *)

(** The JSON documents the engine writes and reads back: numbers, strings,
    arrays and objects.  An object keeps its members in document order, as a
    Python [dict] keeps insertion order. *)
Inductive json : Type :=
  | JNum (q : Q)
  | JStr (s : string)
  | JArr (items : list json)
  | JObj (members : list (string * json)).

(** The double quote and the backslash, by code. *)
Definition dquote : ascii := ascii_of_nat 34.
Definition backslash : ascii := ascii_of_nat 92.

(** [str(n)] of an integer, in decimal, and its inverse. *)
Definition str_of_Z (z : Z) : string := NilZero.string_of_int (Z.to_int z).
Definition Z_of_str (s : string) : option Z :=
  option_map Z.of_int (NilZero.int_of_string s).
Definition str_of_pos (p : positive) : string :=
  NilZero.string_of_uint (Pos.to_uint p).
Definition pos_of_str (s : string) : option positive :=
  match NilZero.uint_of_string s with
  | Some d => match Pos.of_uint d with Npos p => Some p | N0 => None end
  | None => None
  end.

(** The text of a number.  An integer prints as such; any other rational
    prints as numerator, slash, denominator, which stands for the [repr] of a
    float: both texts determine the number exactly. *)
Definition str_of_Q (q : Q) : string :=
  str_of_Z (Qnum q) ++
  (if (Qden q =? 1)%positive then "" else String "/" (str_of_pos (Qden q))).

(** A string literal: the quote and the backslash are escaped. *)
Fixpoint escape (s : string) : string :=
  match s with
  | EmptyString => EmptyString
  | String c s' =>
      if Ascii.eqb c dquote || Ascii.eqb c backslash
      then String backslash (String c (escape s'))
      else String c (escape s')
  end.

Definition dumps_str (s : string) : string :=
  String dquote (escape s ++ String dquote EmptyString).

(** [', '.join(l)] followed by the closing bracket. *)
Fixpoint join_close (l : list string) (close : string) : string :=
  match l with
  | [] => close
  | x :: l' => x ++ match l' with [] => close | _ => ", " ++ join_close l' close end
  end.

Definition dumps_member (dumps : json -> string) (kx : string * json) : string :=
  dumps_str (fst kx) ++ ": " ++ dumps (snd kx).

(** The encoder, with the default separators of [json.dumps]. *)
Fixpoint dumps (v : json) : string :=
  match v with
  | JNum q => str_of_Q q
  | JStr s => dumps_str s
  | JArr items => String "[" (join_close (map dumps items) "]")
  | JObj members =>
      String "{" (join_close (map (dumps_member dumps) members) "}")
  end.

(** The decoder.  A number token is a maximal run of digits and minus
    signs. *)
Definition is_num_char (c : ascii) : bool :=
  Ascii.eqb c "-" || ((48 <=? nat_of_ascii c)%nat && (nat_of_ascii c <=? 57)%nat).

Fixpoint span_num (s : string) : string * string :=
  match s with
  | EmptyString => (EmptyString, EmptyString)
  | String c s' =>
      if is_num_char c
      then let (a, b) := span_num s' in (String c a, b)
      else (EmptyString, s)
  end.

(** The body of a string literal, up to its closing quote. *)
Fixpoint scan_str (s : string) : option (string * string) :=
  match s with
  | EmptyString => None
  | String c s' =>
      if Ascii.eqb c dquote then Some (EmptyString, s')
      else if Ascii.eqb c backslash then
        match s' with
        | String c' s'' =>
            if Ascii.eqb c' dquote || Ascii.eqb c' backslash
            then match scan_str s'' with
                 | Some (a, r) => Some (String c' a, r)
                 | None => None
                 end
            else None
        | EmptyString => None
        end
      else match scan_str s' with
           | Some (a, r) => Some (String c a, r)
           | None => None
           end
  end.

(** [eat pre s]: [s] without its prefix [pre], when it has it. *)
Fixpoint eat (pre s : string) : option string :=
  match pre with
  | EmptyString => Some s
  | String c pre' =>
      match s with
      | String c' s' => if Ascii.eqb c c' then eat pre' s' else None
      | EmptyString => None
      end
  end.

Definition loads_num (s : string) : option (json * string) :=
  let (tok, r) := span_num s in
  match Z_of_str tok with
  | None => None
  | Some n =>
      match eat "/" r with
      | Some r' =>
          let (tok', r'') := span_num r' in
          match pos_of_str tok' with
          | Some d => Some (JNum (n # d), r'')
          | None => None
          end
      | None => Some (JNum (n # 1), r)
      end
  end.

Definition loads_str (s : string) : option (string * string) :=
  match s with
  | String c s' => if Ascii.eqb c dquote then scan_str s' else None
  | EmptyString => None
  end.

Fixpoint loads_items (p : string -> option (json * string)) (k : nat) (s : string)
  : option (list json * string) :=
  match k with
  | O => None
  | S k =>
      match p s with
      | Some (x, r) =>
          match eat "]" r with
          | Some r' => Some ([x], r')
          | None =>
              match eat ", " r with
              | Some r' =>
                  match loads_items p k r' with
                  | Some (l, r'') => Some (x :: l, r'')
                  | None => None
                  end
              | None => None
              end
          end
      | None => None
      end
  end.

Fixpoint loads_members (p : string -> option (json * string)) (k : nat) (s : string)
  : option (list (string * json) * string) :=
  match k with
  | O => None
  | S k =>
      match loads_str s with
      | Some (key, r) =>
          match eat ": " r with
          | Some r0 =>
              match p r0 with
              | Some (x, r1) =>
                  match eat "}" r1 with
                  | Some r' => Some ([(key, x)], r')
                  | None =>
                      match eat ", " r1 with
                      | Some r' =>
                          match loads_members p k r' with
                          | Some (l, r'') => Some ((key, x) :: l, r'')
                          | None => None
                          end
                      | None => None
                      end
                  end
              | None => None
              end
          | None => None
          end
      | None => None
      end
  end.

(** One value and the text that follows it.  Every step consumes a
    character, so the length of the text is fuel enough. *)
Fixpoint loads_value (fuel : nat) (s : string) : option (json * string) :=
  match fuel with
  | O => None
  | S fuel =>
      match s with
      | EmptyString => None
      | String c s' =>
          if Ascii.eqb c dquote then
            match scan_str s' with
            | Some (a, r) => Some (JStr a, r)
            | None => None
            end
          else if Ascii.eqb c "[" then
            match eat "]" s' with
            | Some r => Some (JArr [], r)
            | None =>
                match loads_items (loads_value fuel) fuel s' with
                | Some (l, r) => Some (JArr l, r)
                | None => None
                end
            end
          else if Ascii.eqb c "{" then
            match eat "}" s' with
            | Some r => Some (JObj [], r)
            | None =>
                match loads_members (loads_value fuel) fuel s' with
                | Some (l, r) => Some (JObj l, r)
                | None => None
                end
            end
          else loads_num s
      end
  end.

(** [json.dumps(v)] *)
Definition json_dumps (v : json) : string := dumps v.

(** [json.loads(s)]: the whole text must be one value. *)
Definition json_loads (s : string) : result json :=
  match loads_value (String.length s) s with
  | Some (v, EmptyString) => Ok v
  | _ => Raise (JSONDecodeError "Expecting value")
  end.

(** The number of nodes of a document, a bound on the fuel its text needs. *)
Fixpoint json_size (v : json) : nat :=
  match v with
  | JNum _ | JStr _ => 1
  | JArr items => S (list_sum (map (fun x => S (json_size x)) items))
  | JObj members => S (list_sum (map (fun kx => S (json_size (snd kx))) members))
  end.

(** Predicates used to state that decoding inverts encoding. *)
Fixpoint all_num (s : string) : bool :=
  match s with
  | EmptyString => true
  | String c s' => is_num_char c && all_num s'
  end.

Definition stops_num (rest : string) : bool :=
  match rest with
  | EmptyString => true
  | String c _ => negb (is_num_char c)
  end.

(** What may follow a value inside a document. *)
Definition delim (rest : string) : bool :=
  match rest with
  | EmptyString => true
  | String c _ => Ascii.eqb c "," || Ascii.eqb c "]" || Ascii.eqb c "}"
  end.

(** The first character of a printed value. *)
Definition starts_value (c : ascii) : bool :=
  Ascii.eqb c dquote || Ascii.eqb c "[" || Ascii.eqb c "{" || is_num_char c.

(** [p] decodes the text of [x], whatever follows it. *)
Definition parses (p : string -> option (json * string)) (x : json) : Prop :=
  forall rest, delim rest = true -> p (dumps x ++ rest) = Some (x, rest).

(** [obj[key]] on a decoded object, where a repeated key keeps its last
    value; [None] when [key not in obj]. *)
Fixpoint dict_get (key : string) (members : list (string * json)) : option json :=
  match members with
  | [] => None
  | (k, v) :: members' =>
      match dict_get key members' with
      | Some v' => Some v'
      | None => if String.eqb key k then Some v else None
      end
  end.

(* ===================================================================== *)
(** * Data model ([src/search.py], [src/valuation.py]) *)
(* ===================================================================== *)

Inductive PurchaseCategory : Type := BUY | RENT.

(** [PurchaseCategory.value] *)
Definition PurchaseCategory_value (c : PurchaseCategory) : string :=
  match c with BUY => "buy" | RENT => "rent" end.

(** [PurchaseCategory(s)]: the enum member with that value. *)
Definition PurchaseCategory_of_value (s : string) : result PurchaseCategory :=
  if String.eqb s "buy" then Ok BUY
  else if String.eqb s "rent" then Ok RENT
  else Raise (ValueError (s ++ " is not a valid PurchaseCategory")).

Record GeoLocation : Type := {
  latitude : Q;
  longitude : Q
}.

Record Property : Type := {
  identifier : string;
  display_address : string;
  price : Q;
  geo_location : GeoLocation;
  purchase_category : PurchaseCategory;
  image_url : string
}.

Record ValuationParameters : Type := {
  min_deposit : Z;
  max_deposit : Z;
  mortgage_length : Z;
  mortgage_interest_rate : Q;
  investment_increase : Z;
  investment_deduction : Z;
  rent_increase : Z;
  rent_deduction : Z
}.

Record Valuation : Type := {
  property : Property;
  estimated_rental_income : Q;
  return_on_investment : Q
}.

(* ===================================================================== *)
(** * Search parameters and URLs ([src/search.py]) *)
(* ===================================================================== *)

Inductive PropertyType : Type :=
  | FLAT | DETACHED | SEMI_DETACHED | TERRACE | BUNGALOW | PARK_HOME | LAND
  | STUDENT_HALLS.

Definition PropertyType_value (t : PropertyType) : string :=
  match t with
  | FLAT => "flat"
  | DETACHED => "detached"
  | SEMI_DETACHED => "semi-detached"
  | TERRACE => "terraced"
  | BUNGALOW => "bungalow"
  | PARK_HOME => "park-home"
  | LAND => "land"
  | STUDENT_HALLS => "private-halls"
  end.

Inductive MustHave : Type :=
  | MH_AUCTION | MH_GARDEN | MH_PARKING | MH_NEW_HOME | MH_RETIREMENT
  | MH_SHARED_OWNERSHIP.

Definition MustHave_value (m : MustHave) : string :=
  match m with
  | MH_AUCTION => "auction"
  | MH_GARDEN => "garden"
  | MH_PARKING => "parking"
  | MH_NEW_HOME => "newHome"
  | MH_RETIREMENT => "retirement"
  | MH_SHARED_OWNERSHIP => "sharedOwnership"
  end.

Inductive DontShow : Type := DS_NEW_HOME | DS_RETIREMENT | DS_SHARED_OWNERSHIP.

Definition DontShow_value (d : DontShow) : string :=
  match d with
  | DS_NEW_HOME => "newHome"
  | DS_RETIREMENT => "retirement"
  | DS_SHARED_OWNERSHIP => "sharedOwnership"
  end.

Inductive FurnishType : Type := FURNISHED | PART_FURNISHED | UNFURNISHED.

Definition FurnishType_value (f : FurnishType) : string :=
  match f with
  | FURNISHED => "furnished"
  | PART_FURNISHED => "partFurnished"
  | UNFURNISHED => "unfurnished"
  end.

(** The attributes of a [SearchParameters] object.  A bound that was [None]
    at construction is stored as the empty string, here [None]. *)
Record SearchParameters : Type := {
  location_name : string;
  location_id : string;
  radius : Q;
  min_price : option Z;
  max_price : option Z;
  min_bedrooms : option Z;
  max_bedrooms : option Z;
  max_days_since_added : option Z;
  property_types : list PropertyType;
  must_have : list MustHave;
  dont_show : list DontShow;
  furnish_types : list FurnishType;
  params_purchase_category : PurchaseCategory
}.

(** The assignment [self.purchase_category = c]. *)
Definition set_purchase_category (c : PurchaseCategory) (self : SearchParameters)
  : SearchParameters :=
  {| location_name := location_name self;
     location_id := location_id self;
     radius := radius self;
     min_price := min_price self;
     max_price := max_price self;
     min_bedrooms := min_bedrooms self;
     max_bedrooms := max_bedrooms self;
     max_days_since_added := max_days_since_added self;
     property_types := property_types self;
     must_have := must_have self;
     dont_show := dont_show self;
     furnish_types := furnish_types self;
     params_purchase_category := c |}.

Record URL : Type := {
  url : string;
  url_purchase_category : PurchaseCategory
}.

(** [url.value()] with no argument *)
Definition URL_value (u : URL) : string := url u.

(** [f"{x}"] for an attribute that holds an integer or the empty string. *)
Definition str_of_bound (b : option Z) : string :=
  match b with
  | Some n => str_of_Z n
  | None => ""
  end.

(** [','.join(l)] *)
Fixpoint join_comma (l : list string) : string :=
  match l with
  | [] => ""
  | [x] => x
  | x :: l' => x ++ "," ++ join_comma l'
  end.

Definition _url_property_for_sale (self : SearchParameters) : URL :=
  {| url :=
       "https://www.rightmove.co.uk/property-for-sale/find.html?"
       ++ "locationIdentifier=" ++ location_id self ++ "&"
       ++ "radius=" ++ str_of_Q (radius self) ++ "&"
       ++ "minPrice=" ++ str_of_bound (min_price self) ++ "&"
       ++ "maxPrice=" ++ str_of_bound (max_price self) ++ "&"
       ++ "minBedrooms=" ++ str_of_bound (min_bedrooms self) ++ "&"
       ++ "maxBedrooms=" ++ str_of_bound (max_bedrooms self) ++ "&"
       ++ "maxDaysSinceAdded=" ++ str_of_bound (max_days_since_added self) ++ "&"
       ++ "propertyTypes="
       ++ join_comma (map PropertyType_value (property_types self)) ++ "&"
       ++ "mustHave=" ++ join_comma (map MustHave_value (must_have self)) ++ "&"
       ++ "dontShow=" ++ join_comma (map DontShow_value (dont_show self)) ++ "&"
       ++ "includeSSTC=false";
     url_purchase_category := BUY |}.

Definition _url_property_to_rent (self : SearchParameters) : URL :=
  {| url :=
       "https://www.rightmove.co.uk/property-to-rent/find.html?"
       ++ "locationIdentifier=" ++ location_id self ++ "&"
       ++ "radius=" ++ str_of_Q (radius self) ++ "&"
       ++ "minBedrooms=" ++ str_of_bound (min_bedrooms self) ++ "&"
       ++ "maxBedrooms=" ++ str_of_bound (max_bedrooms self) ++ "&"
       ++ "maxDaysSinceAdded=" ++ str_of_bound (max_days_since_added self) ++ "&"
       ++ "propertyTypes="
       ++ join_comma (map PropertyType_value (property_types self)) ++ "&"
       ++ "mustHave=" ++ join_comma (map MustHave_value (must_have self)) ++ "&"
       ++ "dontShow=" ++ join_comma (map DontShow_value (dont_show self)) ++ "&"
       ++ "furnishTypes="
       ++ join_comma (map FurnishType_value (furnish_types self)) ++ "&"
       ++ "includeLetAgreed=true";
     url_purchase_category := RENT |}.

(** [to_url(self)]; the enum has two members, so the final [raise] of the
    source is unreachable. *)
Definition to_url (self : SearchParameters) : URL :=
  match params_purchase_category self with
  | BUY => _url_property_for_sale self
  | RENT => _url_property_to_rent self
  end.

(** [repr(valuation_params)] *)
Definition ValuationParameters_repr (v : ValuationParameters) : string :=
  "ValuationParameters("
  ++ "min_deposit=" ++ str_of_Z (min_deposit v) ++ ", "
  ++ "max_deposit=" ++ str_of_Z (max_deposit v) ++ ", "
  ++ "mortgage_length=" ++ str_of_Z (mortgage_length v) ++ ", "
  ++ "mortgage_interest_rate=" ++ str_of_Q (mortgage_interest_rate v) ++ ", "
  ++ "investment_increase=" ++ str_of_Z (investment_increase v) ++ ", "
  ++ "investment_deduction=" ++ str_of_Z (investment_deduction v) ++ ", "
  ++ "rent_increase=" ++ str_of_Z (rent_increase v) ++ ", "
  ++ "rent_deduction=" ++ str_of_Z (rent_deduction v)
  ++ ")".

(* ===================================================================== *)
(** * Library models: [sorted], numpy, scipy *)
(* ===================================================================== *)

(** Python's [sorted(l, key=key)]: ascending in the key and stable.  A stable
    sort has one possible output, so insertion of each element in front of the
    first later element whose key is not smaller stands for Timsort. *)
Fixpoint insert_by {A : Type} (key : A -> Q) (x : A) (l : list A) : list A :=
  match l with
  | [] => [x]
  | y :: l' => if Qle_bool (key x) (key y) then x :: l else y :: insert_by key x l'
  end.

Definition sorted {A : Type} (key : A -> Q) (l : list A) : list A :=
  fold_right (insert_by key) [] l.

(** The order [sorted] puts its output in. *)
Definition key_le {A : Type} (key : A -> Q) (a b : A) : Prop := (key a <= key b)%Q.

(** [np.percentile(data, q)] with numpy's default method ("linear"): on the
    sorted array of size [n] the virtual index is [q/100 * (n-1)], and the
    value is interpolated linearly between its two neighbours.  (On an empty
    array the value is meaningless; [remove_outliers] then has nothing to
    compare it with.) *)
Definition np_percentile (data : list Q) (q : Q) : Q :=
  let arr := sorted (fun x => x) data in
  let n := Z.of_nat (length arr) in
  let virtual_index := (q / 100 * inject_Z (n - 1))%Q in
  let previous := Qfloor virtual_index in
  let next := Z.min (previous + 1) (n - 1) in
  let gamma := (virtual_index - inject_Z previous)%Q in
  let a := nth (Z.to_nat previous) arr (0 : Q) in
  let b := nth (Z.to_nat next) arr (0 : Q) in
  (a + (b - a) * gamma)%Q.

(** Twice the signed area of the triangle [a b c]. *)
Definition cross (a b c : Q * Q) : Q :=
  ((fst b - fst a) * (snd c - snd a) - (snd b - snd a) * (fst c - fst a))%Q.

(** All the points lie on one line (or coincide): no triangle exists. *)
Definition degenerate (pts : list (Q * Q)) : bool :=
  forallb (fun a => forallb (fun b => forallb (fun c =>
    Qeq_bool (cross a b c) 0) pts) pts) pts.

Section Interpolation.

(** scipy's piecewise-linear interpolant over a Delaunay triangulation of
    points that span the plane: the interpolated value at the query point, or
    [None] (NaN, the fill value) when the query lies outside the convex hull
    of the points.  The triangulation itself is not modelled. *)
Variable linear_nd : list (Q * Q) -> list Q -> Q * Q -> option Q.

(** [scipy.interpolate.griddata(points, values, xi, method='linear')] for
    two-dimensional points.  Documented behaviour of the library:
    - a different number of points and values is a [ValueError];
    - the Delaunay triangulation is built by Qhull, which raises [QhullError]
      (a [RuntimeError], not a [ValueError]) when the points do not span the
      plane, that is when they are all collinear or coincide;
    - otherwise the interpolant is evaluated at [xi]. *)
Definition griddata (points : list (Q * Q)) (values : list Q) (xi : Q * Q)
  : result (option Q) :=
  if negb (length points =? length values)%nat
  then Raise (ValueError "different number of values and points")
  else if degenerate points
  then Raise (QhullError "QH6154 Qhull precision error: Initial simplex is flat")
  else Ok (linear_nd points values xi).

(* ===================================================================== *)
(** * The rent surface and the score ([src/valuation.py]) *)
(* ===================================================================== *)

(** [remove_outliers(data, threshold=1.5)] *)
Definition remove_outliers (data : list Q) (threshold : Q) : list Q :=
  let q1 := np_percentile data 25 in
  let q3 := np_percentile data 75 in
  let iqr := (q3 - q1)%Q in
  let lower_bound := (q1 - iqr * threshold)%Q in
  let upper_bound := (q3 + iqr * threshold)%Q in
  List.filter (fun x => Qle_bool lower_bound x && Qle_bool x upper_bound) data.

Definition default_threshold : Q := 3 # 2.

(** The attributes [_get_valuation] stores on the engine and [get_height]
    reads back: [self.points], [self.values], [self.average_price]. *)
Record Estimator : Type := {
  points : list (Q * Q);
  values : list Q;
  average_price : Q
}.

(** [get_height(self, x, y)] *)
Definition get_height (self : Estimator) (x y : Q) : result Q :=
  let? value :=
    match griddata (points self) (values self) (x, y) with
    | Ok v => Ok v
    | Raise e =>
        if is_ValueError e then Ok (Some (average_price self)) else Raise e
    end in
  match value with
  | None => Ok (average_price self)
  | Some v => Ok v
  end.

(** The local variables of [get_score], as functions of what they depend on. *)
Definition monthly_rate (valuation_params : ValuationParameters) : Q :=
  (mortgage_interest_rate valuation_params / (12 * 100))%Q.

Definition payments (valuation_params : ValuationParameters) : Z :=
  (mortgage_length valuation_params * 12)%Z.

Definition principal (property_price : Q) (valuation_params : ValuationParameters) : Q :=
  py_max (property_price - inject_Z (max_deposit valuation_params))%Q 0.

Definition cost (valuation_params : ValuationParameters) : Z :=
  (max_deposit valuation_params
   + (investment_increase valuation_params - investment_deduction valuation_params))%Z.

(** [p * r * math.pow(1+r, n) / (math.pow(1+r, n) - 1)] *)
Definition monthly_mortgage (p r : Q) (n : Z) : result Q :=
  let? pw := math_pow (1 + r) n in
  let? pw' := math_pow (1 + r) n in
  py_div (p * r * pw) (pw' - 1).

Definition net_annual_income (rent_price : Q) (valuation_params : ValuationParameters)
    (monthly : Q) : Q :=
  let net_rent_increase :=
    (rent_increase valuation_params - rent_deduction valuation_params)%Z in
  ((rent_price + inject_Z net_rent_increase - monthly) * 12)%Q.

(** [get_score(self, property, valuation_params)] *)
Definition get_score (self : Estimator) (property : Property)
    (valuation_params : ValuationParameters) : result Q :=
  let? rent_price :=
    get_height self (longitude (geo_location property))
                    (latitude (geo_location property)) in
  let r := monthly_rate valuation_params in
  let n := payments valuation_params in
  let p := principal (price property) valuation_params in
  if Qeq_bool r 0
  then Raise (ValueError "Mortgage percentage cannot be zero")
  else
    let? monthly := monthly_mortgage p r n in
    let income := net_annual_income rent_price valuation_params monthly in
    if (cost valuation_params =? 0)%Z
    then Raise (ValueError "Cost cannot be zero")
    else Ok (round2 (100 * income / inject_Z (cost valuation_params))).

(** Lines 120-134 of [_get_valuation]: the rental listings whose price
    survives the outlier filter, their coordinates and prices, padded with the
    four corners of the bounding box at the average price.  [min()] of an
    empty sequence is a [ValueError]. *)
Definition build_estimator (rent_properties : list Property) : result Estimator :=
  let rent_prices := map price rent_properties in
  let filtered_rent_prices := remove_outliers rent_prices default_threshold in
  let rent_properties :=
    List.filter (fun property => existsb (Qeq_bool (price property)) filtered_rent_prices)
           rent_properties in
  let pts := map (fun property => (longitude (geo_location property),
                                   latitude (geo_location property)))
                 rent_properties in
  match map fst pts, map snd pts with
  | lon :: lons, lat :: lats =>
      let min_lon := min_list lon lons in
      let max_lon := max_list lon lons in
      let min_lat := min_list lat lats in
      let max_lat := max_list lat lats in
      let vals := map price rent_properties in
      let avg := (sum_list vals / inject_Z (Z.of_nat (length vals)))%Q in
      Ok {| points := pts ++ [(min_lon, min_lat); (max_lon, min_lat);
                              (min_lon, max_lat); (max_lon, max_lat)];
            values := vals ++ [avg; avg; avg; avg];
            average_price := avg |}
  | _, _ => Raise (ValueError "min() arg is an empty sequence")
  end.

End Interpolation.
(* ===================================================================== *)
(** * The cache and the logger ([src/cache.py], [src/logger.py]) *)
(* ===================================================================== *)

(** Library model: the Redis server behind [redis.StrictRedis].  A key holds
    a text and the time at which it expires ([SET key value EX seconds]); a
    key that has expired is absent.  Time is a simulated clock.  The
    connection may fail: [faults] schedules, command by command, whether the
    next command raises (an exhausted schedule means no more failures). *)
Record Redis : Type := {
  clock : Z;
  faults : list bool;
  keyspace : gmap string (string * Z)
}.

Definition next_fault (r : Redis) : bool * Redis :=
  match faults r with
  | [] => (false, r)
  | f :: fs => (f, {| clock := clock r; faults := fs; keyspace := keyspace r |})
  end.

(** [redis_client.get(key)] *)
Definition redis_get (key : string) (r : Redis) : result (option string) * Redis :=
  let (failed, r') := next_fault r in
  if failed then (Raise (ConnectionError "Error connecting to Redis"), r')
  else
    (Ok match keyspace r' !! key with
        | Some (value, expires) =>
            if (clock r' <? expires)%Z then Some value else None
        | None => None
        end, r').

(** [redis_client.set(key, value, ex=expiry)] *)
Definition redis_set (key value : string) (expiry : Z) (r : Redis)
  : result unit * Redis :=
  let (failed, r') := next_fault r in
  if failed then (Raise (ConnectionError "Error connecting to Redis"), r')
  else
    (Ok tt, {| clock := clock r';
               faults := faults r';
               keyspace := <[key := (value, (clock r' + expiry)%Z)]> (keyspace r') |}).

(** The passing of [seconds] of simulated time. *)
Definition elapse (seconds : Z) (r : Redis) : Redis :=
  {| clock := (clock r + seconds)%Z; faults := faults r; keyspace := keyspace r |}.

(** [Cache.get(self, key)]: the stored text decoded with [json.loads], or
    [None]. *)
Definition Cache_get (key : string) (r : Redis) : result (option json) * Redis :=
  match redis_get key r with
  | (Ok None, r') => (Ok None, r')
  | (Ok (Some text), r') =>
      (match json_loads text with
       | Ok v => Ok (Some v)
       | Raise e => Raise e
       end, r')
  | (Raise e, r') => (Raise e, r')
  end.

(** [Cache.set(self, key, value, expiry)] *)
Definition Cache_set (key value : string) (expiry : Z) (r : Redis)
  : result unit * Redis :=
  redis_set key value expiry r.

Inductive LogLevel : Type := INFO | WARNING | ERROR.

(** A [LogEntry], without its timestamp. *)
Record LogEntry : Type := {
  message : string;
  level : LogLevel
}.

(* ===================================================================== *)
(** * The world of a request *)
(* ===================================================================== *)

(** The mutable objects a ranking request shares with its caller: the
    [SearchParameters] object passed as [params], the cache, and the logger's
    [history]. *)
Record World : Type := {
  params : SearchParameters;
  cache : Redis;
  history : list LogEntry
}.

(** A computation that reads and writes the world and may raise; what it
    wrote before raising stays written. *)
Definition M (A : Type) : Type := World -> result A * World.

Definition ret {A : Type} (a : A) : M A := fun w => (Ok a, w).

Definition raise {A : Type} (e : exn) : M A := fun w => (Raise e, w).

Definition bind {A B : Type} (m : M A) (k : A -> M B) : M B :=
  fun w =>
    match m w with
    | (Ok a, w') => k a w'
    | (Raise e, w') => (Raise e, w')
    end.

Declare Scope M_scope.
Delimit Scope M_scope with M.
Notation "x <- m ;; k" := (bind m (fun x => k))
  (at level 100, m at next level, right associativity) : M_scope.
Notation "m ;; k" := (bind m (fun _ => k))
  (at level 100, right associativity) : M_scope.
Local Open Scope M_scope.

(** A pure call that may raise. *)
Definition lift {A : Type} (r : result A) : M A := fun w => (r, w).

(** [try: m  except Exception as e: handler(e)] *)
Definition try_except {A : Type} (m : M A) (handler : exn -> M A) : M A :=
  fun w =>
    match m w with
    | (Ok a, w') => (Ok a, w')
    | (Raise e, w') => handler e w'
    end.

(** [try: m  except ValueError as e: handler(e)]; any other exception goes
    on. *)
Definition try_except_ValueError {A : Type} (m : M A) (handler : exn -> M A) : M A :=
  try_except m (fun e => if is_ValueError e then handler e else raise e).

(** [Logger.info] and [Logger.warning]: the entry is appended to the
    history.  The line that [_log] appends to the log file first is not
    modelled: the file is taken to be writable. *)
Definition log (lvl : LogLevel) (msg : string) : M unit :=
  fun w =>
    (Ok tt, {| params := params w;
               cache := cache w;
               history := history w ++ [{| message := msg; level := lvl |}] |}).

Definition info (msg : string) : M unit := log INFO msg.
Definition warning (msg : string) : M unit := log WARNING msg.

(** A cache call made from the engine. *)
Definition on_cache {A : Type} (op : Redis -> result A * Redis) : M A :=
  fun w =>
    let (r, c) := op (cache w) in
    (r, {| params := params w; cache := c; history := history w |}).

(** [params.to_buy()] and [params.to_rent()]: the object itself is updated
    and handed back, so the caller's object changes. *)
Definition to_buy : M SearchParameters :=
  fun w =>
    let self := set_purchase_category BUY (params w) in
    (Ok self, {| params := self; cache := cache w; history := history w |}).

Definition to_rent : M SearchParameters :=
  fun w =>
    let self := set_purchase_category RENT (params w) in
    (Ok self, {| params := self; cache := cache w; history := history w |}).

(* ===================================================================== *)
(** * The cache payload ([src/valuation.py]) *)
(* ===================================================================== *)

(** The dictionary [_convert_valuations_to_payload] builds for a valuation. *)
Definition valuation_to_obj (valuation : Valuation) : json :=
  JObj [
    ("identifier", JStr (identifier (property valuation)));
    ("display_address", JStr (display_address (property valuation)));
    ("price", JNum (price (property valuation)));
    ("geo_location", JObj [
       ("latitude", JNum (latitude (geo_location (property valuation))));
       ("longitude", JNum (longitude (geo_location (property valuation))))]);
    ("purchase_category",
       JStr (PurchaseCategory_value (purchase_category (property valuation))));
    ("estimated_rental_income", JNum (estimated_rental_income valuation));
    ("return_on_investment", JNum (return_on_investment valuation));
    ("image_url", JStr (image_url (property valuation)))
  ].

(** [_convert_valuations_to_payload(valuations)] *)
Definition _convert_valuations_to_payload (valuations : list Valuation) : string :=
  json_dumps (JArr (map valuation_to_obj valuations)).

(** The keys [_convert_payload_to_valuations] requires of every record. *)
Definition mandatory_fields : list string :=
  ["identifier"; "display_address"; "price"; "geo_location"; "purchase_category";
   "estimated_rental_income"; "return_on_investment"; "image_url"].

(** [if key not in obj: raise ValueError(...)] *)
Definition require_key (key : string) (obj : list (string * json)) (what : string)
  : result json :=
  match dict_get key obj with
  | Some v => Ok v
  | None => Raise (ValueError (what ++ " object is missing " ++ key ++ " key"))
  end.

(** Reading a field into a typed attribute.  Python stores whatever the
    payload holds; the records of this model are typed, so a value of another
    JSON type is rejected here.  The encoder never produces one. *)
Definition as_str (v : json) : result string :=
  match v with
  | JStr s => Ok s
  | _ => Raise (TypeError "expected a string")
  end.

Definition as_num (v : json) : result Q :=
  match v with
  | JNum q => Ok q
  | _ => Raise (TypeError "expected a number")
  end.

(** The body of the loop of [_convert_payload_to_valuations]: the checks, in
    the order of the source, then the construction.  A [geo_location] that is
    not an object makes Python fail as well, at the membership test or at the
    subscript. *)
Definition valuation_of_obj (obj : json) : result Valuation :=
  match obj with
  | JObj o =>
      let? j_identifier := require_key "identifier" o "property" in
      let? j_display_address := require_key "display_address" o "property" in
      let? j_price := require_key "price" o "property" in
      let? j_geo := require_key "geo_location" o "property" in
      let? g :=
        match j_geo with
        | JObj g => Ok g
        | _ => Raise (TypeError "geo_location is not a dictionary")
        end in
      let? j_latitude := require_key "latitude" g "geo_location" in
      let? j_longitude := require_key "longitude" g "geo_location" in
      let? j_category := require_key "purchase_category" o "property" in
      let? j_income := require_key "estimated_rental_income" o "property" in
      let? j_roi := require_key "return_on_investment" o "property" in
      let? j_image_url := require_key "image_url" o "property" in
      let? v_identifier := as_str j_identifier in
      let? v_display_address := as_str j_display_address in
      let? v_price := as_num j_price in
      let? v_latitude := as_num j_latitude in
      let? v_longitude := as_num j_longitude in
      let? s_category := as_str j_category in
      let? v_category := PurchaseCategory_of_value s_category in
      let? v_image_url := as_str j_image_url in
      let? v_income := as_num j_income in
      let? v_roi := as_num j_roi in
      Ok {| property :=
              {| identifier := v_identifier;
                 display_address := v_display_address;
                 price := v_price;
                 geo_location := {| latitude := v_latitude;
                                    longitude := v_longitude |};
                 purchase_category := v_category;
                 image_url := v_image_url |};
            estimated_rental_income := v_income;
            return_on_investment := v_roi |}
  | _ => Raise (ValueError "Property object to be a dictionary")
  end.

(** [for obj in output: ... properties.append(...)] *)
Fixpoint valuations_of_objs (output : list json) : result (list Valuation) :=
  match output with
  | [] => Ok []
  | obj :: output' =>
      let? valuation := valuation_of_obj obj in
      let? properties := valuations_of_objs output' in
      Ok (valuation :: properties)
  end.

(** [_convert_payload_to_valuations(payload)].  [payload] is what
    [Cache.get] returned, that is a decoded JSON value; [json.loads] accepts
    it only if it is a string. *)
Definition _convert_payload_to_valuations (payload : json) : result (list Valuation) :=
  match payload with
  | JStr text =>
      let? output := json_loads text in
      match output with
      | JArr objs => valuations_of_objs objs
      | _ => Raise (ValueError "Expected a list of property objects")
      end
  | _ => Raise (TypeError "the JSON object must be str, bytes or bytearray")
  end.

(* ===================================================================== *)
(** * Ranking ([src/valuation.py]) *)
(* ===================================================================== *)

Section Ranking.

Variable linear_nd : list (Q * Q) -> list Q -> Q * Q -> option Q.

(** The call [Valuation(property=..., estimated_rental_income=
    self.get_height(...), return_on_investment=self.get_score(...))]: the
    arguments are evaluated in this order. *)
Definition make_valuation (self : Estimator) (valuation_params : ValuationParameters)
    (property : Property) : result Valuation :=
  let? income :=
    get_height linear_nd self (longitude (geo_location property))
                              (latitude (geo_location property)) in
  let? roi := get_score linear_nd self property valuation_params in
  Ok {| property := property;
        estimated_rental_income := income;
        return_on_investment := roi |}.

(** The loop over [buy_properties] of [_get_valuation]. *)
Fixpoint value_properties (self : Estimator) (valuation_params : ValuationParameters)
    (buy_properties : list Property) (valuations : list Valuation)
  : M (list Valuation) :=
  match buy_properties with
  | [] => ret valuations
  | property :: buy_properties' =>
      valuations' <-
        try_except_ValueError
          (valuation <- lift (make_valuation self valuation_params property) ;;
           ret (valuations ++ [valuation])%list)
          (fun e =>
             warning ("Failed to get score for property: "
                      ++ display_address property ++ ". Error: " ++ exn_str e) ;;
             ret valuations) ;;
      value_properties self valuation_params buy_properties' valuations'
  end.

(** What the loop keeps, without its logging: the valuations of the
    candidates whose valuation succeeds, in the order of the candidates; a
    [ValueError] drops its candidate, any other exception ends the loop. *)
Fixpoint kept_valuations (self : Estimator) (valuation_params : ValuationParameters)
    (buy_properties : list Property) : result (list Valuation) :=
  match buy_properties with
  | [] => Ok []
  | property :: buy_properties' =>
      match make_valuation self valuation_params property with
      | Ok valuation =>
          let? valuations := kept_valuations self valuation_params buy_properties' in
          Ok (valuation :: valuations)
      | Raise e =>
          if is_ValueError e
          then kept_valuations self valuation_params buy_properties'
          else Raise e
      end
  end.

(** The sort key of the ranking: [lambda valuation: -valuation.return_on_investment] *)
Definition ranking_key (valuation : Valuation) : Q :=
  (- return_on_investment valuation)%Q.

(** [_get_valuation(self, rent_properties, buy_properties, valuation_params)] *)
Definition _get_valuation (rent_properties buy_properties : list Property)
    (valuation_params : ValuationParameters) : M (list Valuation) :=
  if (length rent_properties =? 0)%nat || (length buy_properties =? 0)%nat
  then ret []
  else
    self <- lift (build_estimator rent_properties) ;;
    valuations <- value_properties self valuation_params buy_properties [] ;;
    ret (sorted ranking_key valuations).

(** The [find_properties] callable.  Its argument is the shared
    [SearchParameters] object, which it finds in the world. *)
Variable find_properties : M (list Property).

(** The cache key of a request. *)
Definition cache_key (u : URL) (valuation_params : ValuationParameters) : string :=
  "valuation:" ++ URL_value u ++ "-" ++ ValuationParameters_repr valuation_params.

(** [key] between double quotes, as the log messages show it. *)
Definition quoted (key : string) : string :=
  String dquote (key ++ String dquote EmptyString).

(** Lines 88-98 of [rank_properties]: the cached list, or [None] when there
    is nothing to return from the cache. *)
Definition load_from_cache (key : string) : M (option (list Valuation)) :=
  info ("Attempting to load valuations from cache: " ++ quoted key) ;;
  try_except
    (payload <- on_cache (Cache_get key) ;;
     match payload with
     | Some payload =>
         info ("Loaded payload for valuations from cache: " ++ quoted key) ;;
         valuations <- lift (_convert_payload_to_valuations payload) ;;
         ret (Some valuations)
     | None =>
         info ("No valuation data found in cache: " ++ quoted key) ;;
         ret None
     end)
    (fun e =>
       warning ("Failed to load valuations from cache: " ++ quoted key
                ++ ". Error: " ++ exn_str e) ;;
       ret None).

(** Lines 100-104: the two fetches and the valuation. *)
Definition create_valuations (valuation_params : ValuationParameters)
  : M (list Valuation) :=
  info "Creating valuations" ;;
  to_rent ;;
  rent_properties <- find_properties ;;
  to_buy ;;
  buy_properties <- find_properties ;;
  _get_valuation rent_properties buy_properties valuation_params.

(** Lines 105-112: the write to the cache, whose failure is logged. *)
Definition save_to_cache (key : string) (valuations : list Valuation) : M unit :=
  try_except
    (info ("Saving valuations to cache: " ++ quoted key) ;;
     let payload := _convert_valuations_to_payload valuations in
     on_cache (Cache_set key (json_dumps (JStr payload)) (30 * 60)))
    (fun e =>
       warning ("Failed to save valuations to cache: " ++ quoted key
                ++ ". Error: " ++ exn_str e)).

(** [rank_properties(self, params, valuation_params, find_properties)] *)
Definition rank_properties (valuation_params : ValuationParameters)
  : M (list Valuation) :=
  fun w =>
    (info ("Ranking properties for search " ++ location_name (params w)
           ++ " with radius " ++ str_of_Q (radius (params w)) ++ " km") ;;
     self <- to_buy ;;
     let key := cache_key (to_url self) valuation_params in
     cached <- load_from_cache key ;;
     match cached with
     | Some valuations => ret valuations
     | None =>
         valuations <- create_valuations valuation_params ;;
         save_to_cache key valuations ;;
         ret valuations
     end) w.

End Ranking.

(* ===================================================================== *)
(** * Example data *)
(* ===================================================================== *)

(** An interpolant for the examples: every query falls outside the hull. *)
Definition outside_hull : list (Q * Q) -> list Q -> Q * Q -> option Q :=
  fun _ _ _ => None.

Definition listing (id : string) (cost_or_rent lat lon : Q) (c : PurchaseCategory)
  : Property :=
  {| identifier := id;
     display_address := id ++ " High Street";
     price := cost_or_rent;
     geo_location := {| latitude := lat; longitude := lon |};
     purchase_category := c;
     image_url := "" |}.

(** Three rentals that span the plane. *)
Definition example_rentals : list Property :=
  [listing "r1" 1000 0 0 RENT; listing "r2" 1200 1 0 RENT; listing "r3" 900 0 1 RENT].

(** Three rentals along one street: the same latitude. *)
Definition street_rentals : list Property :=
  [listing "s1" 1000 0 0 RENT; listing "s2" 1200 0 1 RENT; listing "s3" 900 0 2 RENT].

(** Three candidates, the first and the last alike but for their name. *)
Definition example_candidates : list Property :=
  [listing "b1" 200000 (1 # 2) (1 # 4) BUY; listing "b2" 250000 5 5 BUY;
   listing "b3" 200000 (1 # 2) (1 # 4) BUY].

(** The parameters of the worked example of the specification. *)
Definition example_valuation_params : ValuationParameters :=
  {| min_deposit := 0; max_deposit := 40000; mortgage_length := 25;
     mortgage_interest_rate := 3; investment_increase := 0;
     investment_deduction := 0; rent_increase := 0; rent_deduction := 0 |}.

(** The same with a mortgage rate of zero. *)
Definition zero_rate_params : ValuationParameters :=
  {| min_deposit := 0; max_deposit := 40000; mortgage_length := 25;
     mortgage_interest_rate := 0; investment_increase := 0;
     investment_deduction := 0; rent_increase := 0; rent_deduction := 0 |}.

Definition example_home : Property := listing "h" 200000 5 5 BUY.

(** An estimator whose estimate is 1000 everywhere. *)
Definition flat_estimator : Estimator :=
  {| points := [(0, 0); (1, 0); (0, 1)]%Q;
     values := [1000; 1000; 1000]%Q;
     average_price := 1000 |}.

Definition example_search : SearchParameters :=
  {| location_name := "London";
     location_id := "REGION^87490";
     radius := 1 # 4;
     min_price := Some 100000%Z;
     max_price := None;
     min_bedrooms := None;
     max_bedrooms := Some 3%Z;
     max_days_since_added := None;
     property_types := [BUNGALOW; DETACHED; FLAT];
     must_have := [];
     dont_show := [DS_SHARED_OWNERSHIP];
     furnish_types := [FURNISHED; UNFURNISHED];
     params_purchase_category := RENT |}.

Definition empty_redis : Redis := {| clock := 0; faults := []; keyspace := ∅ |}.

Definition example_world : World :=
  {| params := example_search; cache := empty_redis; history := [] |}.

(** A search engine for the examples: it reads the category of the shared
    parameters and answers from fixed listings. *)
Definition example_find (rentals candidates : list Property) : M (list Property) :=
  fun w =>
    (Ok match params_purchase_category (params w) with
        | RENT => rentals
        | BUY => candidates
        end, w).

(** The valuation of an example candidate. *)
Definition example_valuation (p : Property) (income roi : Q) : Valuation :=
  {| property := p; estimated_rental_income := income; return_on_investment := roi |}.

(** The ranking of the example candidates: [b1] and [b3] tie, and [b1] comes
    first in the listing sequence. *)
Definition example_ranked : list Valuation :=
  [example_valuation (listing "b1" 200000 (1 # 2) (1 # 4) BUY) (3100 # 3) 8.24;
   example_valuation (listing "b3" 200000 (1 # 2) (1 # 4) BUY) (3100 # 3) 8.24;
   example_valuation (listing "b2" 250000 5 5 BUY) (3100 # 3) 1.12].

(** A first request on the example world: a miss. *)
Definition example_request : result (list Valuation) * World :=
  rank_properties outside_hull (example_find example_rentals example_candidates)
    example_valuation_params example_world.

(** The example parameters with a mortgage of one year. *)
Definition short_mortgage_params : ValuationParameters :=
  {| min_deposit := 0; max_deposit := 40000; mortgage_length := 1;
     mortgage_interest_rate := 3; investment_increase := 0;
     investment_deduction := 0; rent_increase := 0; rent_deduction := 0 |}.

(** The ranking of the example candidates under them. *)
Definition short_ranked : list Valuation :=
  [example_valuation (listing "b1" 200000 (1 # 2) (1 # 4) BUY) (3100 # 3) (-375.53);
   example_valuation (listing "b3" 200000 (1 # 2) (1 # 4) BUY) (3100 # 3) (-375.53);
   example_valuation (listing "b2" 250000 5 5 BUY) (3100 # 3) (-502.57)].

(** An interpolant for the examples that reads the rent off the longitude. *)
Definition rent_by_longitude : list (Q * Q) -> list Q -> Q * Q -> option Q :=
  fun _ _ xi => Some (fst xi).

(** A buyer who pays 120000 in cash. *)
Definition cash_params : ValuationParameters :=
  {| min_deposit := 0; max_deposit := 120000; mortgage_length := 1;
     mortgage_interest_rate := 3; investment_increase := 0;
     investment_deduction := 0; rent_increase := 0; rent_deduction := 0 |}.

(** Three candidates whose scores under them are 9.1, 5.0 and 9.1. *)
Definition abc_candidates : list Property :=
  [listing "A" 100000 0 910 BUY;
   listing "B" 100000 0 500 BUY;
   listing "C" 100000 1 910 BUY].

Definition acb_ranked : list Valuation :=
  [example_valuation (listing "A" 100000 0 910 BUY) 910 (910 # 100);
   example_valuation (listing "C" 100000 1 910 BUY) 910 (910 # 100);
   example_valuation (listing "B" 100000 0 500 BUY) 500 (500 # 100)].

(* ===================================================================== *)
(** * The search engine ([src/search.py]) *)
(* ===================================================================== *)

(** [url.value(index, properties_per_page)] *)
Definition URL_value_page (u : URL) (index properties_per_page : option Z) : string :=
  match index, properties_per_page with
  | Some i, Some n =>
      url u ++ "&index=" ++ str_of_Z i
            ++ "&numberOfPropertiesPerPage=" ++ str_of_Z n
  | None, Some n => url u ++ "&numberOfPropertiesPerPage=" ++ str_of_Z n
  | _, None => url u
  end.

(** [range(0, stop, step)] for a positive [step]. *)
Definition range_by (stop step : Z) : list Z :=
  map (fun k => (Z.of_nat k * step)%Z) (seq 0 (Z.to_nat ((stop + step - 1) / step))).

Definition max_properties_per_page : Z := 499.

(** The dictionary [_convert_properties_to_payload] builds for a property. *)
Definition property_to_obj (p : Property) : json :=
  JObj [
    ("identifier", JStr (identifier p));
    ("display_address", JStr (display_address p));
    ("price", JNum (price p));
    ("geo_location", JObj [
       ("latitude", JNum (latitude (geo_location p)));
       ("longitude", JNum (longitude (geo_location p)))]);
    ("purchase_category", JStr (PurchaseCategory_value (purchase_category p)));
    ("image_url", JStr (image_url p))
  ].

(** [_convert_properties_to_payload(properties)] *)
Definition _convert_properties_to_payload (properties : list Property) : string :=
  json_dumps (JArr (map property_to_obj properties)).

(** The keys [_convert_payload_to_properties] requires of every record. *)
Definition property_fields : list string :=
  ["identifier"; "display_address"; "price"; "geo_location"; "purchase_category";
   "image_url"].

(** The body of the loop of [_convert_payload_to_properties]. *)
Definition property_of_obj (obj : json) : result Property :=
  match obj with
  | JObj o =>
      let? j_identifier := require_key "identifier" o "property" in
      let? j_display_address := require_key "display_address" o "property" in
      let? j_price := require_key "price" o "property" in
      let? j_geo := require_key "geo_location" o "property" in
      let? g :=
        match j_geo with
        | JObj g => Ok g
        | _ => Raise (TypeError "geo_location is not a dictionary")
        end in
      let? j_latitude := require_key "latitude" g "geo_location" in
      let? j_longitude := require_key "longitude" g "geo_location" in
      let? j_category := require_key "purchase_category" o "property" in
      let? j_image_url := require_key "image_url" o "property" in
      let? v_identifier := as_str j_identifier in
      let? v_display_address := as_str j_display_address in
      let? v_price := as_num j_price in
      let? v_latitude := as_num j_latitude in
      let? v_longitude := as_num j_longitude in
      let? s_category := as_str j_category in
      let? v_category := PurchaseCategory_of_value s_category in
      let? v_image_url := as_str j_image_url in
      Ok {| identifier := v_identifier;
            display_address := v_display_address;
            price := v_price;
            geo_location := {| latitude := v_latitude; longitude := v_longitude |};
            purchase_category := v_category;
            image_url := v_image_url |}
  | _ => Raise (ValueError "Property object to be a dictionary")
  end.

Fixpoint properties_of_objs (output : list json) : result (list Property) :=
  match output with
  | [] => Ok []
  | obj :: output' =>
      let? p := property_of_obj obj in
      let? properties := properties_of_objs output' in
      Ok (p :: properties)
  end.

(** [_convert_payload_to_properties(payload)] *)
Definition _convert_payload_to_properties (payload : json) : result (list Property) :=
  match payload with
  | JStr text =>
      let? output := json_loads text in
      match output with
      | JArr objs => properties_of_objs objs
      | _ => Raise (ValueError "Expected a list of property objects")
      end
  | _ => Raise (TypeError "the JSON object must be str, bytes or bytearray")
  end.

Section SearchEngine.

(** The two network calls, [_fetch_number_of_properties(url)] and
    [_fetch_property(url_str, purchase_category)]: what the site answers is
    not modelled. *)
Variable _fetch_number_of_properties : string -> M Z.
Variable _fetch_property : string -> PurchaseCategory -> M (list Property).

(** The loop of [_fetch_properties] over the page indexes. *)
Fixpoint fetch_pages (u : URL) (indexes : list Z) (properties : list Property)
  : M (list Property) :=
  match indexes with
  | [] => ret properties
  | index :: indexes' =>
      page <- _fetch_property
                (URL_value_page u (Some index) (Some max_properties_per_page))
                (url_purchase_category u) ;;
      fetch_pages u indexes' (properties ++ page)%list
  end.

(** [_fetch_properties(self, url)] *)
Definition _fetch_properties (u : URL) : M (list Property) :=
  property_count <- _fetch_number_of_properties (URL_value u) ;;
  let property_count := Z.min property_count 1000 in
  fetch_pages u (range_by property_count max_properties_per_page) [].

(** The cache key of a search. *)
Definition properties_key (u : URL) : string := "properties:" ++ URL_value u.

(** Lines 253-263 of [find_properties]. *)
Definition load_properties_from_cache (key : string) : M (option (list Property)) :=
  info ("Attempting to load properties from cache: " ++ quoted key) ;;
  try_except
    (payload <- on_cache (Cache_get key) ;;
     match payload with
     | Some payload =>
         info ("Loaded payload for properties from cache: " ++ quoted key) ;;
         properties <- lift (_convert_payload_to_properties payload) ;;
         ret (Some properties)
     | None =>
         info ("No property data found in cache: " ++ quoted key) ;;
         ret None
     end)
    (fun e =>
       warning ("Failed to load properties from cache: " ++ quoted key
                ++ ". Error: " ++ exn_str e) ;;
       ret None).

(** Lines 268-275 of [find_properties]. *)
Definition save_properties_to_cache (key : string) (properties : list Property)
  : M unit :=
  try_except
    (info ("Saving properties to cache: " ++ quoted key) ;;
     let payload := _convert_properties_to_payload properties in
     on_cache (Cache_set key (json_dumps (JStr payload)) (30 * 60)))
    (fun e =>
       warning ("Failed to save properties to cache: " ++ quoted key
                ++ ". Error: " ++ exn_str e)).

(** [SearchEngine.find_properties(self, params)], with [params] the shared
    object of the world. *)
Definition SearchEngine_find_properties : M (list Property) :=
  fun w =>
    let self := params w in
    (info ("Searching for properties to "
           ++ PurchaseCategory_value (params_purchase_category self)
           ++ " in " ++ location_name self
           ++ " with radius " ++ str_of_Q (radius self) ++ " km") ;;
     let u := to_url self in
     let key := properties_key u in
     cached <- load_properties_from_cache key ;;
     match cached with
     | Some properties => ret properties
     | None =>
         info "Fetching properties from Rightmove API" ;;
         properties <- _fetch_properties u ;;
         save_properties_to_cache key properties ;;
         info ("Found " ++ str_of_Z (Z.of_nat (length properties))
               ++ " properties to "
               ++ PurchaseCategory_value (url_purchase_category u)
               ++ " in " ++ location_name self
               ++ " with radius " ++ str_of_Q (radius self) ++ " km") ;;
         ret properties
     end) w.

End SearchEngine.

(* ===================================================================== *)
(** * Example data: a site *)
(* ===================================================================== *)

(** A site with three rentals and three houses for sale. *)
Definition example_site_count : string -> M Z := fun _ => ret 3%Z.

Definition example_site_page : string -> PurchaseCategory -> M (list Property) :=
  fun _ c => ret match c with RENT => example_rentals | BUY => example_candidates end.

(** A site that is down. *)
Definition failing_site_count : string -> M Z :=
  fun _ => raise (HTTPError "503 Server Error").

(** A world whose cache holds the rentals of the example search. *)
Definition cached_search_world : World :=
  {| params := example_search;
     cache := snd (Cache_set (properties_key (to_url example_search))
                     (json_dumps (JStr (_convert_properties_to_payload example_rentals)))
                     (30 * 60) empty_redis);
     history := [] |}.

(** A ranking request over the example site. *)
Definition short_site_request : result (list Valuation) * World :=
  rank_properties outside_hull
    (SearchEngine_find_properties example_site_count example_site_page)
    short_mortgage_params example_world.

(* ===================================================================== *)
(** * The application ([app.py]) *)
(* ===================================================================== *)

(** [Logger.error(message)] *)
Definition error (msg : string) : M unit := log ERROR msg.

(** [l.sort(key=key, reverse=True)], as CPython runs it: the list is
    reversed, sorted, and reversed again, which keeps elements of equal key
    in the order they had. *)
Definition sort_reverse {A : Type} (key : A -> Q) (l : list A) : list A :=
  rev (sorted key (rev l)).

(** What the route [/properties_data] does with the valuations it gets:
    [valuations.sort(key=lambda v: v.return_on_investment, reverse=True)],
    then the rows of [valuations[:100]]. *)
Definition displayed_valuations (valuations : list Valuation) : list Valuation :=
  firstn 100 (sort_reverse return_on_investment valuations).

Section App.

Variable linear_nd : list (Q * Q) -> list Q -> Q * Q -> option Q.

(** [self._search_engine.find_properties] *)
Variable find_properties : M (list Property).

(** [App.get_property_valuations(self, params, valuation_params)]; [params]
    is the shared object of the world.  [except Exception] catches every
    exception of the model. *)
Definition get_property_valuations (valuation_params : ValuationParameters)
  : M (list Valuation) :=
  fun w =>
    (info ("Getting property valuations for search " ++ location_name (params w)
           ++ " with radius " ++ str_of_Q (radius (params w)) ++ " km") ;;
     ranked <-
       try_except
         (valuations <- rank_properties linear_nd find_properties valuation_params ;;
          ret (Some valuations))
         (fun e =>
            error ("Failed to get property valuations. Error: " ++ exn_str e) ;;
            ret None) ;;
     match ranked with
     | None => ret []
     | Some valuations =>
         info ("Got " ++ str_of_Z (Z.of_nat (length valuations))
               ++ " property valuations") ;;
         ret valuations
     end) w.

End App.

(** A request through the application while the site is down. *)
Definition site_down_app_request : result (list Valuation) * World :=
  get_property_valuations outside_hull
    (SearchEngine_find_properties failing_site_count example_site_page)
    example_valuation_params example_world.

(** A request with one rental listing on the market. *)
Definition single_rental_app_request : result (list Valuation) * World :=
  get_property_valuations outside_hull
    (example_find [listing "r1" 1000 0 0 RENT] example_candidates)
    example_valuation_params example_world.

(* ===================================================================== *)
(** * Proofs: the JSON codec *)
(* ===================================================================== *)

Lemma append_assoc (a b c : string) : (a ++ b) ++ c = a ++ (b ++ c).
Proof. induction a; simpl; congruence. Qed.

Lemma append_length (a b : string) :
  String.length (a ++ b) = (String.length a + String.length b)%nat.
Proof. induction a; simpl; congruence. Qed.

Lemma scan_str_escape (s rest : string) :
  scan_str (escape s ++ String dquote rest) = Some (s, rest).
Proof.
  induction s as [|c s IH]; simpl.
  - reflexivity.
  - destruct (Ascii.eqb c dquote) eqn:Hq; simpl.
    + rewrite Hq. simpl. rewrite IH. reflexivity.
    + destruct (Ascii.eqb c backslash) eqn:Hb; simpl.
      * rewrite Hb, orb_true_r. rewrite IH. reflexivity.
      * rewrite Hq, Hb, IH. reflexivity.
Qed.

Lemma span_num_app (a rest : string) :
  all_num a = true -> stops_num rest = true -> span_num (a ++ rest) = (a, rest).
Proof.
  induction a as [|c a IH]; simpl; intros Ha Hr.
  - destruct rest as [|c r]; simpl in *; [reflexivity|].
    destruct (is_num_char c); [discriminate | reflexivity].
  - apply andb_prop in Ha as [Hc Ha]. rewrite Hc, IH by assumption. reflexivity.
Qed.

Lemma all_num_uint (d : Decimal.uint) : all_num (NilEmpty.string_of_uint d) = true.
Proof. induction d; simpl; auto. Qed.

Lemma all_num_str_of_pos (p : positive) : all_num (str_of_pos p) = true.
Proof.
  unfold str_of_pos, NilZero.string_of_uint.
  destruct (Pos.to_uint p) eqn:E; try (rewrite <- E; apply all_num_uint); reflexivity.
Qed.

Lemma all_num_str_of_Z (z : Z) : all_num (str_of_Z z) = true.
Proof.
  unfold str_of_Z. destruct z as [|p|p]; simpl; try reflexivity.
  - apply all_num_str_of_pos.
  - apply all_num_str_of_pos.
Qed.

Lemma Z_of_str_of_Z (z : Z) : Z_of_str (str_of_Z z) = Some z.
Proof.
  unfold Z_of_str, str_of_Z. rewrite NilZero.isi.
  - simpl. f_equal. apply DecimalZ.of_to.
  - destruct z as [|p|p]; simpl; try discriminate.
    intros H. injection H as H. revert H. apply Unsigned.to_uint_nonnil.
  - destruct z as [|p|p]; simpl; try discriminate.
    intros H. injection H as H. revert H. apply Unsigned.to_uint_nonnil.
Qed.

Lemma pos_of_str_of_pos (p : positive) : pos_of_str (str_of_pos p) = Some p.
Proof.
  unfold pos_of_str, str_of_pos. rewrite NilZero.usu.
  - rewrite DecimalPos.Unsigned.of_to. reflexivity.
  - apply Unsigned.to_uint_nonnil.
Qed.

Lemma delim_stops (rest : string) : delim rest = true -> stops_num rest = true.
Proof.
  destruct rest as [|c r]; simpl; [reflexivity|].
  intros H. apply orb_prop in H as [H|H]; [apply orb_prop in H as [H|H]|];
    apply Ascii.eqb_eq in H; subst c; reflexivity.
Qed.

Lemma eat_other (c c' : ascii) (s : string) :
  c <> c' -> eat (String c EmptyString) (String c' s) = None.
Proof. intros H. simpl. destruct (Ascii.eqb_spec c c'); congruence. Qed.

Lemma delim_no_slash (rest : string) : delim rest = true -> eat "/" rest = None.
Proof.
  destruct rest as [|c r]; [reflexivity|]. intros H. apply eat_other.
  intros <-. discriminate H.
Qed.

Lemma loads_num_dumps (q : Q) (rest : string) :
  delim rest = true -> loads_num (str_of_Q q ++ rest) = Some (JNum q, rest).
Proof.
  intros Hd. destruct q as [n d]. unfold loads_num, str_of_Q. simpl Qnum. simpl Qden.
  rewrite append_assoc.
  destruct (Pos.eqb_spec d 1) as [->|Hne].
  - simpl append at 2. rewrite span_num_app; auto using all_num_str_of_Z, delim_stops.
    rewrite Z_of_str_of_Z, delim_no_slash by assumption. reflexivity.
  - rewrite span_num_app; auto using all_num_str_of_Z.
    rewrite Z_of_str_of_Z. simpl.
    rewrite span_num_app; auto using all_num_str_of_pos, delim_stops.
    rewrite pos_of_str_of_pos. reflexivity.
Qed.

Section json_induction.
Variable P : json -> Prop.
Hypothesis HNum : forall q, P (JNum q).
Hypothesis HStr : forall s, P (JStr s).
Hypothesis HArr : forall items, Forall P items -> P (JArr items).
Hypothesis HObj : forall members,
  Forall (fun kx => P (snd kx)) members -> P (JObj members).

Fixpoint json_nested_ind (v : json) : P v :=
  match v with
  | JNum q => HNum q
  | JStr s => HStr s
  | JArr items =>
      HArr items
        ((fix go (l : list json) : Forall P l :=
            match l with
            | [] => @List.Forall_nil _ P
            | x :: l' => @List.Forall_cons _ P x l' (json_nested_ind x) (go l')
            end) items)
  | JObj members =>
      HObj members
        ((fix go (l : list (string * json)) : Forall (fun kx => P (snd kx)) l :=
            match l with
            | [] => @List.Forall_nil _ _
            | kx :: l' =>
                @List.Forall_cons _ (fun kx => P (snd kx)) kx l'
                  (json_nested_ind (snd kx)) (go l')
            end) members)
  end.
End json_induction.

Lemma str_of_pos_head (p : positive) :
  exists c s, str_of_pos p = String c s /\ is_num_char c = true.
Proof.
  pose proof (all_num_str_of_pos p) as H.
  pose proof (Unsigned.to_uint_nonnil p) as Hn.
  unfold str_of_pos, NilZero.string_of_uint in *.
  destruct (Pos.to_uint p); try congruence; simpl in *;
    eexists _, _; (split; [reflexivity|]); reflexivity.
Qed.

Lemma str_of_Z_head (z : Z) :
  exists c s, str_of_Z z = String c s /\ is_num_char c = true.
Proof.
  destruct z as [|p|p].
  - eexists _, _; split; reflexivity.
  - apply (str_of_pos_head p).
  - eexists _, _; split; reflexivity.
Qed.

Lemma dumps_head (v : json) :
  exists c s, dumps v = String c s /\ starts_value c = true.
Proof.
  destruct v as [q|s|l|m]; simpl.
  - destruct (str_of_Z_head (Qnum q)) as (c & s & E & Hc).
    unfold str_of_Q. rewrite E. simpl. eexists _, _; split; [reflexivity|].
    unfold starts_value. rewrite Hc. apply orb_true_r.
  - eexists _, _; split; reflexivity.
  - eexists _, _; split; reflexivity.
  - eexists _, _; split; reflexivity.
Qed.

Lemma eat_dumps_None (c : ascii) (v : json) (rest : string) :
  starts_value c = false -> eat (String c EmptyString) (dumps v ++ rest) = None.
Proof.
  intros Hc. destruct (dumps_head v) as (c' & s & -> & Hc').
  simpl append. apply eat_other. congruence.
Qed.

Lemma loads_str_dumps (s rest : string) :
  loads_str (dumps_str s ++ rest) = Some (s, rest).
Proof.
  unfold loads_str, dumps_str. simpl. rewrite append_assoc. simpl.
  apply scan_str_escape.
Qed.

Lemma loads_items_dumps (p : string -> option (json * string)) (l : list json) :
  l <> [] -> Forall (parses p) l ->
  forall k rest, (length l <= k)%nat ->
  loads_items p k (join_close (map dumps l) "]" ++ rest) = Some (l, rest).
Proof.
  induction l as [|x l IH]; [congruence|]. intros _ HF k rest Hk.
  inversion HF as [|? ? Hx HF']; subst.
  destruct k as [|k]; [simpl in Hk; lia|]. simpl in Hk.
  destruct l as [|y l'].
  - simpl. rewrite append_assoc, Hx by reflexivity. simpl. reflexivity.
  - change (join_close (map dumps (x :: y :: l')) "]")
      with (dumps x ++ ", " ++ join_close (map dumps (y :: l')) "]").
    rewrite !append_assoc. simpl loads_items. rewrite Hx by reflexivity.
    change (eat "]" (", " ++ ?r)) with (@None string).
    simpl eat. rewrite IH; [reflexivity|congruence|assumption|lia].
Qed.

Lemma loads_members_S (p : string -> option (json * string)) (k : nat) (s : string) :
  loads_members p (S k) s =
  match loads_str s with
  | Some (key, r) =>
      match eat ": " r with
      | Some r0 =>
          match p r0 with
          | Some (x, r1) =>
              match eat "}" r1 with
              | Some r' => Some ([(key, x)], r')
              | None =>
                  match eat ", " r1 with
                  | Some r' =>
                      match loads_members p k r' with
                      | Some (l, r'') => Some ((key, x) :: l, r'')
                      | None => None
                      end
                  | None => None
                  end
              end
          | None => None
          end
      | None => None
      end
  | None => None
  end.
Proof. reflexivity. Qed.

Lemma loads_members_dumps (p : string -> option (json * string))
    (l : list (string * json)) :
  l <> [] -> Forall (fun kx => parses p (snd kx)) l ->
  forall k rest, (length l <= k)%nat ->
  loads_members p k (join_close (map (dumps_member dumps) l) "}" ++ rest) = Some (l, rest).
Proof.
  induction l as [|[key x] l IH]; [congruence|]. intros _ HF k rest Hk.
  inversion HF as [|? ? Hx HF']; subst. cbn [snd] in Hx.
  destruct k as [|k]; [simpl in Hk; lia|]. simpl in Hk.
  rewrite loads_members_S.
  destruct l as [|y l'].
  - change (join_close (map (dumps_member dumps) [(key, x)]) "}")
      with ((dumps_str key ++ ": " ++ dumps x) ++ "}").
    rewrite !append_assoc, loads_str_dumps.
    change (eat ": " (": " ++ ?r)) with (Some r). cbv beta iota.
    rewrite ?append_assoc, Hx by reflexivity. reflexivity.
  - change (join_close (map (dumps_member dumps) ((key, x) :: y :: l')) "}")
      with ((dumps_str key ++ ": " ++ dumps x) ++ ", "
            ++ join_close (map (dumps_member dumps) (y :: l')) "}").
    rewrite !append_assoc, loads_str_dumps.
    change (eat ": " (": " ++ ?r)) with (Some r). cbv beta iota.
    rewrite ?append_assoc, Hx by reflexivity.
    change (eat "}" (", " ++ ?r)) with (@None string).
    change (eat ", " (", " ++ ?r)) with (Some r). cbv beta iota.
    rewrite IH; [reflexivity|congruence|assumption|lia].
Qed.

Lemma list_sum_bound {A : Type} (f : A -> nat) (l : list A) :
  (length l <= list_sum (map (fun x => S (f x)) l))%nat /\
  Forall (fun x => f x <= list_sum (map (fun x => S (f x)) l))%nat l.
Proof.
  induction l as [|x l [IH1 IH2]]; simpl; split; auto with arith.
  - lia.
  - constructor; [lia|]. eapply List.Forall_impl; [|exact IH2]. simpl. intros; lia.
Qed.

Lemma num_char_dispatch (c : ascii) :
  is_num_char c = true ->
  Ascii.eqb c dquote = false /\ Ascii.eqb c "[" = false /\ Ascii.eqb c "{" = false.
Proof.
  intros H. repeat split; apply eqb_neq; intros ->; discriminate H.
Qed.

Lemma loads_value_arr (fuel : nat) (s : string) :
  loads_value (S fuel) (String "[" s) =
  match eat "]" s with
  | Some r => Some (JArr [], r)
  | None =>
      match loads_items (loads_value fuel) fuel s with
      | Some (l, r) => Some (JArr l, r)
      | None => None
      end
  end.
Proof. reflexivity. Qed.

Lemma loads_value_obj (fuel : nat) (s : string) :
  loads_value (S fuel) (String "{" s) =
  match eat "}" s with
  | Some r => Some (JObj [], r)
  | None =>
      match loads_members (loads_value fuel) fuel s with
      | Some (l, r) => Some (JObj l, r)
      | None => None
      end
  end.
Proof. reflexivity. Qed.

Lemma loads_value_dumps (v : json) :
  forall fuel, (json_size v <= fuel)%nat -> parses (loads_value fuel) v.
Proof.
  induction v as [q|s|l IH|m IH] using json_nested_ind;
    intros fuel Hf rest Hd; (destruct fuel as [|fuel]; [simpl in Hf; lia|]).
  - destruct (str_of_Z_head (Qnum q)) as (c & s & E & Hc).
    pose proof (loads_num_dumps q rest Hd) as Hn.
    simpl dumps in *. unfold str_of_Q in *. rewrite E in *.
    simpl append in *. simpl loads_value.
    destruct (num_char_dispatch c Hc) as (-> & -> & ->). exact Hn.
  - simpl. rewrite append_assoc. simpl. rewrite scan_str_escape. reflexivity.
  - simpl in Hf. apply le_S_n in Hf.
    destruct (list_sum_bound json_size l) as [Hlen Hall].
    assert (Hk : (length l <= fuel)%nat) by lia.
    assert (Hall' : Forall (fun x => json_size x <= fuel)%nat l)
      by (eapply List.Forall_impl; [|exact Hall]; simpl; intros; lia).
    clear Hf Hlen Hall.
    destruct l as [|x l']; [reflexivity|].
    change (dumps (JArr (x :: l')) ++ rest)
      with (String "[" (join_close (map dumps (x :: l')) "]" ++ rest)).
    rewrite loads_value_arr.
    assert (He : eat "]" (join_close (map dumps (x :: l')) "]" ++ rest) = None).
    { change (join_close (map dumps (x :: l')) "]")
        with (dumps x ++ match map dumps l' with
                         | [] => "]"
                         | _ :: _ => ", " ++ join_close (map dumps l') "]"
                         end).
      rewrite append_assoc. apply eat_dumps_None. reflexivity. }
    rewrite He, loads_items_dumps; [reflexivity|congruence| |exact Hk].
    rewrite List.Forall_forall in IH, Hall'. apply List.Forall_forall. intros y Hy.
    apply IH; [assumption|]. exact (Hall' y Hy).
  - simpl in Hf. apply le_S_n in Hf.
    destruct (list_sum_bound (fun kx => json_size (snd kx)) m) as [Hlen Hall].
    assert (Hk : (length m <= fuel)%nat) by lia.
    assert (Hall' : Forall (fun kx => json_size (snd kx) <= fuel)%nat m)
      by (eapply List.Forall_impl; [|exact Hall]; simpl; intros; lia).
    clear Hf Hlen Hall.
    destruct m as [|[key x] m']; [reflexivity|].
    change (dumps (JObj ((key, x) :: m')) ++ rest)
      with (String "{" (join_close (map (dumps_member dumps) ((key, x) :: m')) "}" ++ rest)).
    rewrite loads_value_obj.
    assert (He : eat "}" (join_close (map (dumps_member dumps) ((key, x) :: m')) "}" ++ rest)
                 = None) by reflexivity.
    rewrite He, loads_members_dumps; [reflexivity|congruence| |exact Hk].
    rewrite List.Forall_forall in IH, Hall'. apply List.Forall_forall. intros y Hy.
    apply IH; [assumption|]. exact (Hall' y Hy).
Qed.

Lemma join_close_length (ss : list string) (close : string) :
  (1 <= String.length close)%nat ->
  (list_sum (map (fun s => S (String.length s)) ss)
   <= String.length (join_close ss close))%nat.
Proof.
  intros Hc. induction ss as [|s ss IH]; [simpl; lia|].
  change (join_close (s :: ss) close)
    with (s ++ match ss with [] => close | _ :: _ => ", " ++ join_close ss close end).
  rewrite append_length. simpl list_sum.
  destruct ss as [|s' ss']; [simpl; lia|].
  change (String.length (", " ++ ?r)) with (S (S (String.length r))). lia.
Qed.

Lemma list_sum_le {A : Type} (f g : A -> nat) (l : list A) :
  Forall (fun x => f x <= g x)%nat l ->
  (list_sum (map (fun x => S (f x)) l) <= list_sum (map (fun x => S (g x)) l))%nat.
Proof. induction 1; simpl; lia. Qed.

Lemma json_size_dumps (v : json) : (json_size v <= String.length (dumps v))%nat.
Proof.
  induction v as [q|s|l IH|m IH] using json_nested_ind.
  - destruct (dumps_head (JNum q)) as (c & s & E & _). rewrite E. simpl. lia.
  - simpl. lia.
  - simpl. apply le_n_S.
    etransitivity; [apply (list_sum_le _ (fun x => String.length (dumps x))), IH|].
    etransitivity; [|apply join_close_length; simpl; lia].
    rewrite map_map. reflexivity.
  - simpl. apply le_n_S.
    etransitivity;
      [apply (list_sum_le _ (fun kx => String.length (dumps_member dumps kx)))|].
    + eapply List.Forall_impl; [|exact IH]. intros [k x] H. unfold dumps_member.
      rewrite !append_length. simpl in *. lia.
    + etransitivity; [|apply join_close_length; simpl; lia].
      rewrite map_map. reflexivity.
Qed.

Lemma json_loads_dumps (v : json) : json_loads (json_dumps v) = Ok v.
Proof.
  unfold json_loads, json_dumps.
  pose proof (loads_value_dumps v (String.length (dumps v)) (json_size_dumps v)
                EmptyString eq_refl) as H.
  assert (E : dumps v ++ "" = dumps v).
  { generalize (dumps v). intros s. induction s; simpl; congruence. }
  rewrite E in H. rewrite H. reflexivity.
Qed.

(* ===================================================================== *)
(** * Proofs: the score *)
(* ===================================================================== *)

Section ScoreProofs.

Variable linear_nd : list (Q * Q) -> list Q -> Q * Q -> option Q.

Lemma get_score_unfold (self : Estimator) (property : Property)
    (valuation_params : ValuationParameters) (rent_price : Q) :
  get_height linear_nd self (longitude (geo_location property))
                            (latitude (geo_location property)) = Ok rent_price ->
  get_score linear_nd self property valuation_params =
  if Qeq_bool (monthly_rate valuation_params) 0
  then Raise (ValueError "Mortgage percentage cannot be zero")
  else
    let? monthly :=
      monthly_mortgage (principal (price property) valuation_params)
                       (monthly_rate valuation_params) (payments valuation_params) in
    if (cost valuation_params =? 0)%Z
    then Raise (ValueError "Cost cannot be zero")
    else Ok (round2 (100 * net_annual_income rent_price valuation_params monthly
                     / inject_Z (cost valuation_params))).
Proof. intros H. unfold get_score. rewrite H. reflexivity. Qed.

Lemma monthly_rate_zero (valuation_params : ValuationParameters) :
  (mortgage_interest_rate valuation_params == 0)%Q ->
  Qeq_bool (monthly_rate valuation_params) 0 = true.
Proof.
  intros H. apply Qeq_bool_iff. unfold monthly_rate. rewrite H. reflexivity.
Qed.

Lemma monthly_rate_pos (valuation_params : ValuationParameters) :
  (0 < mortgage_interest_rate valuation_params)%Q ->
  (0 < monthly_rate valuation_params)%Q.
Proof.
  intros H. unfold monthly_rate.
  apply Qlt_shift_div_l; [reflexivity|]. rewrite Qmult_0_l. exact H.
Qed.

(** With a positive rate and a positive length the payment is defined:
    [(1+r)^n > 1], so neither [math.pow] nor the division raises. *)
Lemma monthly_mortgage_defined (p r : Q) (n : Z) :
  (0 < r)%Q -> (0 < n)%Z -> exists m, monthly_mortgage p r n = Ok m.
Proof.
  intros Hr Hn. unfold monthly_mortgage, math_pow.
  replace (n <? 0)%Z with false by (symmetry; apply Z.ltb_ge; lia).
  rewrite andb_false_r. simpl. unfold py_div.
  assert (Hp : (1 < (1 + r) ^ n)%Q).
  { apply Qpower_1_lt; [|exact Hn]. lra. }
  destruct (Qeq_bool ((1 + r) ^ n - 1) 0) eqn:E.
  - apply Qeq_bool_iff in E. lra.
  - eexists. reflexivity.
Qed.

(** C1.  The worked example of the specification: a purchase price of
    200000, a deposit of 40000, 3 percent over 25 years, no adjustment, and
    an estimated rent of 1000 at the property's coordinates.  The monthly
    payment of the amortization formula lies between 758.73 and 758.74 (so
    within 0.1 of 758.8), the net annual income between 2895.14 and 2895.15
    (so within 1 of 2894.4), and [get_score] returns exactly 7.24, which is
    within 0.05 of 7.24. *)
Theorem roi_worked_example (self : Estimator) (property : Property)
    (valuation_params : ValuationParameters) :
  price property = 200000%Q ->
  max_deposit valuation_params = 40000%Z ->
  mortgage_interest_rate valuation_params = 3%Q ->
  mortgage_length valuation_params = 25%Z ->
  investment_increase valuation_params = 0%Z ->
  investment_deduction valuation_params = 0%Z ->
  rent_increase valuation_params = 0%Z ->
  rent_deduction valuation_params = 0%Z ->
  get_height linear_nd self (longitude (geo_location property))
                            (latitude (geo_location property)) = Ok 1000%Q ->
  exists monthly_payment roi,
    monthly_mortgage (principal (price property) valuation_params)
                     (monthly_rate valuation_params) (payments valuation_params)
      = Ok monthly_payment /\
    (758.73 < monthly_payment < 758.74)%Q /\
    (Qabs (monthly_payment - 758.8) <= 0.1)%Q /\
    (2895.14 < net_annual_income 1000 valuation_params monthly_payment < 2895.15)%Q /\
    (Qabs (net_annual_income 1000 valuation_params monthly_payment - 2894.4) <= 1)%Q /\
    get_score linear_nd self property valuation_params = Ok roi /\
    (roi == 7.24)%Q /\
    (Qabs (roi - 7.24) <= 0.05)%Q.
Proof.
  intros Hprice Hdep Hrate Hlen Hii Hid Hri Hrd Hrent.
  rewrite (get_score_unfold _ _ _ _ Hrent).
  unfold net_annual_income, cost, principal, monthly_rate, payments.
  rewrite Hprice, Hdep, Hrate, Hlen, Hii, Hid, Hri, Hrd.
  eexists _, _. split; [vm_compute; reflexivity|].
  split; [split; vm_compute; reflexivity|].
  split; [vm_compute; discriminate|].
  split; [split; vm_compute; reflexivity|].
  split; [vm_compute; discriminate|].
  split; [vm_compute; reflexivity|].
  split; [vm_compute; reflexivity|].
  vm_compute; discriminate.
Qed.

End ScoreProofs.

(** The example is reached: an estimator whose estimate is 1000, and a
    candidate at 200000. *)
Lemma roi_worked_example_witness :
  exists monthly_payment roi,
    monthly_mortgage (principal (price example_home) example_valuation_params)
                     (monthly_rate example_valuation_params)
                     (payments example_valuation_params)
      = Ok monthly_payment /\
    (758.73 < monthly_payment < 758.74)%Q /\
    (Qabs (monthly_payment - 758.8) <= 0.1)%Q /\
    (2895.14 < net_annual_income 1000 example_valuation_params monthly_payment
     < 2895.15)%Q /\
    (Qabs (net_annual_income 1000 example_valuation_params monthly_payment - 2894.4)
     <= 1)%Q /\
    get_score outside_hull flat_estimator example_home example_valuation_params
      = Ok roi /\
    (roi == 7.24)%Q /\
    (Qabs (roi - 7.24) <= 0.05)%Q.
Proof.
  apply (roi_worked_example outside_hull flat_estimator example_home
           example_valuation_params); reflexivity.
Defined.

(* ===================================================================== *)
(** * Proofs: the rent surface *)
(* ===================================================================== *)

Lemma py_min_cases (a b : Q) : py_min a b = a \/ py_min a b = b.
Proof. unfold py_min. destruct (Qle_bool a b); auto. Qed.

Lemma py_max_cases (a b : Q) : py_max a b = a \/ py_max a b = b.
Proof. unfold py_max. destruct (Qle_bool b a); auto. Qed.

(** The minimum and the maximum of a sequence are elements of it. *)
Lemma min_list_In (xs : list Q) : forall x, In (min_list x xs) (x :: xs).
Proof.
  unfold min_list. induction xs as [|y xs IH]; intros x; simpl.
  - auto.
  - destruct (IH (py_min x y)) as [H|H].
    + rewrite <- H. destruct (py_min_cases x y) as [-> | ->]; auto.
    + auto.
Qed.

Lemma max_list_In (xs : list Q) : forall x, In (max_list x xs) (x :: xs).
Proof.
  unfold max_list. induction xs as [|y xs IH]; intros x; simpl.
  - auto.
  - destruct (IH (py_max x y)) as [H|H].
    + rewrite <- H. destruct (py_max_cases x y) as [-> | ->]; auto.
    + auto.
Qed.

(** Points on one meridian, or on one parallel, span no triangle. *)
Lemma degenerate_same_fst (pts : list (Q * Q)) (x0 : Q) :
  Forall (fun p => (fst p == x0)%Q) pts -> degenerate pts = true.
Proof.
  intros H. rewrite List.Forall_forall in H. unfold degenerate.
  apply forallb_forall. intros a Ha. apply forallb_forall. intros b Hb.
  apply forallb_forall. intros c Hc. apply Qeq_bool_iff. unfold cross.
  rewrite (H a Ha), (H b Hb), (H c Hc). ring.
Qed.

Lemma degenerate_same_snd (pts : list (Q * Q)) (y0 : Q) :
  Forall (fun p => (snd p == y0)%Q) pts -> degenerate pts = true.
Proof.
  intros H. rewrite List.Forall_forall in H. unfold degenerate.
  apply forallb_forall. intros a Ha. apply forallb_forall. intros b Hb.
  apply forallb_forall. intros c Hc. apply Qeq_bool_iff. unfold cross.
  rewrite (H a Ha), (H b Hb), (H c Hc). ring.
Qed.

(** The shape of what [build_estimator] builds. *)
Lemma build_estimator_inv (rent_properties : list Property) (self : Estimator) :
  build_estimator rent_properties = Ok self ->
  exists (kept : list Property) (min_lon max_lon min_lat max_lat : Q),
    kept <> [] /\
    incl kept rent_properties /\
    In min_lon (map (fun p => longitude (geo_location p)) kept) /\
    In max_lon (map (fun p => longitude (geo_location p)) kept) /\
    In min_lat (map (fun p => latitude (geo_location p)) kept) /\
    In max_lat (map (fun p => latitude (geo_location p)) kept) /\
    points self =
      (map (fun p => (longitude (geo_location p), latitude (geo_location p))) kept
       ++ [(min_lon, min_lat); (max_lon, min_lat);
           (min_lon, max_lat); (max_lon, max_lat)])%list /\
    values self =
      (map price kept
       ++ [average_price self; average_price self;
           average_price self; average_price self])%list /\
    average_price self =
      (sum_list (map price kept) / inject_Z (Z.of_nat (length (map price kept))))%Q.
Proof.
  unfold build_estimator.
  match goal with
  | |- context [List.filter ?f rent_properties] =>
      remember (List.filter f rent_properties) as kept eqn:Ek
  end.
  intros H. exists kept.
  assert (Hincl : incl kept rent_properties).
  { rewrite Ek. intros p Hp. apply List.filter_In in Hp. apply Hp. }
  clear Ek.
  destruct kept as [|k kept']; [discriminate|].
  cbn [map fst snd] in H. injection H as <-.
  eexists _, _, _, _.
  split; [discriminate|].
  split; [exact Hincl|].
  rewrite !map_map. cbn [fst snd].
  split; [apply (min_list_In _ _)|].
  split; [apply (max_list_In _ _)|].
  split; [apply (min_list_In _ _)|].
  split; [apply (max_list_In _ _)|].
  repeat split.
Qed.

Lemma build_estimator_lengths (rent_properties : list Property) (self : Estimator) :
  build_estimator rent_properties = Ok self ->
  length (points self) = length (values self).
Proof.
  intros H. destruct (build_estimator_inv _ _ H)
    as (kept & a & b & c & d & _ & _ & _ & _ & _ & _ & Hp & Hv & _).
  rewrite Hp, Hv, !length_app, !length_map. reflexivity.
Qed.

(** The percentile of a single sample is the sample. *)
Lemma np_percentile_single (p q : Q) : (np_percentile [p] q == p)%Q.
Proof.
  unfold np_percentile. cbn [sorted fold_right insert_by length].
  change (Z.of_nat 1 - 1)%Z with 0%Z.
  assert (E : Qfloor (q / 100 * inject_Z 0) = 0%Z).
  { rewrite (Qfloor_comp _ 0); [reflexivity|]. unfold Qdiv. change (inject_Z 0) with 0%Q. ring. }
  rewrite E. change (Z.to_nat 0) with 0%nat.
  change (Z.to_nat (Z.min (0 + 1) 0)) with 0%nat. cbn [nth]. ring.
Qed.

(** A single sample is never an outlier. *)
Lemma remove_outliers_single (p threshold : Q) : remove_outliers [p] threshold = [p].
Proof.
  unfold remove_outliers. cbn [List.filter].
  replace (Qle_bool _ p && Qle_bool p _) with true; [reflexivity|].
  symmetry. apply andb_true_iff. rewrite !Qle_bool_iff.
  rewrite !np_percentile_single. split.
  - apply Qle_lteq. right. ring.
  - apply Qle_lteq. right. ring.
Qed.

(** The estimator of a single rental listing: five copies of its point,
    five copies of its price. *)
Lemma build_estimator_single (listing : Property) :
  exists self,
    build_estimator [listing] = Ok self /\
    (average_price self == price listing)%Q /\
    Forall (fun pt => pt = (longitude (geo_location listing),
                            latitude (geo_location listing))) (points self) /\
    length (points self) = length (values self).
Proof.
  unfold build_estimator. cbn [map]. rewrite remove_outliers_single.
  cbn [List.filter existsb]. rewrite Qeq_bool_refl. cbn [orb map fst snd].
  eexists. split; [reflexivity|]. cbn [average_price points values].
  split; [|split].
  - unfold sum_list. cbn [fold_left length Z.of_nat Pos.of_succ_nat].
    unfold inject_Z. field.
  - unfold min_list, max_list. cbn [fold_left app]. repeat constructor.
  - reflexivity.
Qed.

Section EstimatorProofs.

Variable linear_nd : list (Q * Q) -> list Q -> Q * Q -> option Q.

(** Where the points span the plane the estimate is defined: it is the
    interpolated value, or the average price where the interpolant has
    none. *)
Lemma get_height_spanning (self : Estimator) (x y : Q) :
  length (points self) = length (values self) ->
  degenerate (points self) = false ->
  get_height linear_nd self x y =
  Ok match linear_nd (points self) (values self) (x, y) with
     | Some v => v
     | None => average_price self
     end.
Proof.
  intros Hlen Hdeg. unfold get_height, griddata.
  rewrite Hlen, Nat.eqb_refl, Hdeg. simpl.
  destruct (linear_nd _ _ _); reflexivity.
Qed.

(** Where they do not, [griddata] raises [QhullError], which is not a
    [ValueError]: the [except] clause of [get_height] lets it through. *)
Lemma get_height_degenerate (self : Estimator) (x y : Q) :
  length (points self) = length (values self) ->
  degenerate (points self) = true ->
  get_height linear_nd self x y =
  Raise (QhullError "QH6154 Qhull precision error: Initial simplex is flat").
Proof.
  intros Hlen Hdeg. unfold get_height, griddata.
  rewrite Hlen, Nat.eqb_refl, Hdeg. reflexivity.
Qed.

(** Rentals that share a longitude give a bounding box of no width, and an
    estimator whose every query raises. *)
Lemma same_longitude_raises (rent_properties : list Property) (self : Estimator)
    (lon : Q) (x y : Q) :
  build_estimator rent_properties = Ok self ->
  Forall (fun p => (longitude (geo_location p) == lon)%Q) rent_properties ->
  get_height linear_nd self x y =
  Raise (QhullError "QH6154 Qhull precision error: Initial simplex is flat").
Proof.
  intros Hself Hlon.
  apply get_height_degenerate; [eapply build_estimator_lengths, Hself|].
  destruct (build_estimator_inv _ _ Hself)
    as (kept & a & b & c & d & _ & Hincl & Ha & Hb & _ & _ & Hp & _).
  rewrite List.Forall_forall in Hlon.
  assert (Hk : forall q, In q (map (fun p => longitude (geo_location p)) kept) ->
                         (q == lon)%Q).
  { intros q Hq. apply in_map_iff in Hq as (p & <- & Hin). apply Hlon, Hincl, Hin. }
  apply (degenerate_same_fst _ lon). rewrite Hp. apply Forall_app. split.
  - apply List.Forall_forall. intros q Hq.
    apply in_map_iff in Hq as (p & <- & Hin). apply Hlon, Hincl, Hin.
  - repeat constructor; cbn [fst]; auto.
Qed.

(** C5 (violated by the code).  With exactly one rental listing the
    estimator is built, its average price is the listing's price, and every
    estimate query raises [QhullError]: the five points coincide, the
    triangulation fails, and [get_height] catches [ValueError] only.  The
    fallback to the average price, which would give the price [P] the
    specification announces, is not reached. *)
Theorem single_listing_estimate_raises (listing : Property) (x y : Q) :
  exists self,
    build_estimator [listing] = Ok self /\
    (average_price self == price listing)%Q /\
    get_height linear_nd self x y =
      Raise (QhullError "QH6154 Qhull precision error: Initial simplex is flat").
Proof.
  destruct (build_estimator_single listing) as (self & Hself & Havg & Hpts & Hlen).
  exists self. split; [exact Hself|]. split; [exact Havg|].
  apply get_height_degenerate; [exact Hlen|].
  apply (degenerate_same_fst _ (longitude (geo_location listing))).
  eapply List.Forall_impl; [|exact Hpts]. intros pt ->. reflexivity.
Qed.

(** C2 (violated by the code).  Three rentals along one street, at the same
    latitude: the filtered sample set is not empty and the estimator is
    built, with the corners of its bounding box appended at the mean price;
    yet no query returns a number, every one raises [QhullError].  The
    same happens whenever the bounding box has no width or no height
    ([same_longitude_raises]). *)
Theorem collinear_rentals_estimate_raises (x y : Q) :
  exists self,
    build_estimator street_rentals = Ok self /\
    (average_price self == 3100 # 3)%Q /\
    get_height linear_nd self x y =
      Raise (QhullError "QH6154 Qhull precision error: Initial simplex is flat").
Proof.
  eexists. split; [vm_compute; reflexivity|]. split; [reflexivity|].
  apply get_height_degenerate; reflexivity.
Qed.

End EstimatorProofs.

(* ===================================================================== *)
(** * Proofs: the outlier filter *)
(* ===================================================================== *)

(** C3.  With [Q1] and [Q3] the linear-interpolation quartiles of the input
    and [IQR] their difference, every value [remove_outliers] returns lies
    in [[Q1 - threshold*IQR, Q3 + threshold*IQR]]; the values returned are
    exactly the input values within those bounds, in their order and with
    their multiplicity; and there are at most as many as in the input. *)
Theorem remove_outliers_bounds (data : list Q) (threshold : Q) :
  let Q1 := np_percentile data 25 in
  let Q3 := np_percentile data 75 in
  let IQR := (Q3 - Q1)%Q in
  let within (x : Q) := (Q1 - threshold * IQR <= x /\ x <= Q3 + threshold * IQR)%Q in
  Forall within (remove_outliers data threshold) /\
  (forall x, In x (remove_outliers data threshold) <-> In x data /\ within x) /\
  (exists keep : Q -> bool,
     (forall x, keep x = true <-> within x) /\
     remove_outliers data threshold = List.filter keep data) /\
  (length (remove_outliers data threshold) <= length data)%nat.
Proof.
  intros Q1 Q3 IQR within.
  set (keep := fun x : Q =>
         Qle_bool (Q1 - IQR * threshold) x && Qle_bool x (Q3 + IQR * threshold)).
  assert (Hkeep : forall x, keep x = true <-> within x).
  { intros x. unfold keep, within. rewrite andb_true_iff, !Qle_bool_iff.
    rewrite (Qmult_comm IQR threshold). reflexivity. }
  assert (Hdef : remove_outliers data threshold = List.filter keep data) by reflexivity.
  rewrite Hdef. repeat split.
  - apply List.Forall_forall. intros x Hx.
    apply List.filter_In in Hx as [_ Hx]. apply Hkeep, Hx.
  - apply List.filter_In in H. apply H.
  - apply List.filter_In in H. apply Hkeep, H.
  - apply List.filter_In in H. apply Hkeep, H.
  - intros [Hin Hw]. apply List.filter_In. split; [exact Hin|]. apply Hkeep, Hw.
  - exists keep. split; [exact Hkeep | reflexivity].
  - apply List.filter_length_le.
Qed.

(* ===================================================================== *)
(** * Proofs: [sorted] *)
(* ===================================================================== *)

Section SortedProofs.

Context {A : Type}.
Variable key : A -> Q.

Lemma insert_by_perm (x : A) (l : list A) : Permutation (insert_by key x l) (x :: l).
Proof.
  induction l as [|y l IH]; simpl.
  - reflexivity.
  - destruct (Qle_bool (key x) (key y)).
    + reflexivity.
    + rewrite IH. apply perm_swap.
Qed.

Lemma sorted_perm (l : list A) : Permutation (sorted key l) l.
Proof.
  induction l as [|x l IH]; simpl.
  - reflexivity.
  - rewrite insert_by_perm. constructor. exact IH.
Qed.

Lemma insert_by_sorted (x : A) (l : list A) :
  StronglySorted (key_le key) l -> StronglySorted (key_le key) (insert_by key x l).
Proof.
  induction 1 as [|y l Hs IH Hy]; simpl.
  - repeat constructor.
  - destruct (Qle_bool (key x) (key y)) eqn:E.
    + apply Qle_bool_iff in E. constructor.
      * constructor; assumption.
      * constructor; [exact E|].
        eapply List.Forall_impl; [|exact Hy]. intros z Hz.
        unfold key_le in *. eapply Qle_trans; eassumption.
    + constructor; [exact IH|].
      assert (Hyx : key_le key y x).
      { unfold key_le. destruct (Qlt_le_dec (key x) (key y)) as [Hlt|Hle].
        - apply Qlt_le_weak, Qle_bool_iff in Hlt. congruence.
        - exact Hle. }
      eapply Permutation_Forall; [symmetry; apply insert_by_perm|].
      constructor; assumption.
Qed.

Lemma sorted_StronglySorted (l : list A) : StronglySorted (key_le key) (sorted key l).
Proof.
  induction l as [|x l IH]; simpl.
  - constructor.
  - apply insert_by_sorted, IH.
Qed.

(** Stability: the elements of one key class keep their relative order. *)
Lemma insert_by_filter (k : Q) (x : A) (l : list A) :
  List.filter (fun a => Qeq_bool (key a) k) (insert_by key x l) =
  List.filter (fun a => Qeq_bool (key a) k) (x :: l).
Proof.
  induction l as [|y l IH]; [reflexivity|].
  simpl insert_by. destruct (Qle_bool (key x) (key y)) eqn:E; [reflexivity|].
  simpl List.filter in *. rewrite IH.
  destruct (Qeq_bool (key x) k) eqn:Ex; [|reflexivity].
  destruct (Qeq_bool (key y) k) eqn:Ey; [|reflexivity].
  apply Qeq_bool_iff in Ex, Ey.
  assert (Hle : Qle_bool (key x) (key y) = true).
  { apply Qle_bool_iff. rewrite Ex, Ey. apply Qle_refl. }
  congruence.
Qed.

Lemma sorted_stable (k : Q) (l : list A) :
  List.filter (fun a => Qeq_bool (key a) k) (sorted key l) =
  List.filter (fun a => Qeq_bool (key a) k) l.
Proof.
  induction l as [|x l IH]; [reflexivity|].
  simpl sorted. rewrite insert_by_filter. simpl. rewrite IH. reflexivity.
Qed.

End SortedProofs.

(* ===================================================================== *)
(** * Proofs: the loop and the ranking *)
(* ===================================================================== *)

Section RankingProofs.

Variable linear_nd : list (Q * Q) -> list Q -> Q * Q -> option Q.

(** The loop returns what [kept_valuations] says, after what it was given. *)
Lemma value_properties_fst (self : Estimator) (valuation_params : ValuationParameters)
    (buy_properties : list Property) :
  forall (valuations : list Valuation) (w : World),
  fst (value_properties linear_nd self valuation_params buy_properties valuations w) =
  let? kept := kept_valuations linear_nd self valuation_params buy_properties in
  Ok (valuations ++ kept)%list.
Proof.
  induction buy_properties as [|property rest IH]; intros valuations w.
  - simpl. rewrite app_nil_r. reflexivity.
  - simpl value_properties. simpl kept_valuations.
    unfold bind, try_except_ValueError, try_except, lift, ret, raise.
    destruct (make_valuation linear_nd self valuation_params property) as [v|e].
    + simpl. rewrite IH.
      destruct (kept_valuations linear_nd self valuation_params rest); simpl;
        [rewrite <- app_assoc|]; reflexivity.
    + destruct (is_ValueError e); simpl; [apply IH | reflexivity].
Qed.

(** The loop writes to the log only. *)
Lemma value_properties_frame (self : Estimator) (valuation_params : ValuationParameters)
    (buy_properties : list Property) :
  forall (valuations : list Valuation) (w : World),
  let w' := snd (value_properties linear_nd self valuation_params
                   buy_properties valuations w) in
  params w' = params w /\ cache w' = cache w.
Proof.
  induction buy_properties as [|property rest IH]; intros valuations w.
  - simpl. auto.
  - simpl value_properties.
    unfold bind, try_except_ValueError, try_except, lift, ret, raise.
    destruct (make_valuation linear_nd self valuation_params property) as [v|e].
    + simpl. apply IH.
    + destruct (is_ValueError e); simpl; [|auto].
      match goal with |- context [value_properties _ _ _ _ _ ?w1] =>
        destruct (IH valuations w1) as [Hp Hc] end.
      simpl in *. rewrite Hp, Hc. auto.
Qed.

(** [_get_valuation] without its logging. *)
Lemma _get_valuation_fst (rent_properties buy_properties : list Property)
    (valuation_params : ValuationParameters) (w : World) :
  fst (_get_valuation linear_nd rent_properties buy_properties valuation_params w) =
  match rent_properties, buy_properties with
  | [], _ | _, [] => Ok []
  | _, _ =>
      let? self := build_estimator rent_properties in
      let? kept := kept_valuations linear_nd self valuation_params buy_properties in
      Ok (sorted ranking_key kept)
  end.
Proof.
  unfold _get_valuation.
  destruct rent_properties as [|r rs]; [reflexivity|].
  destruct buy_properties as [|b bs]; [reflexivity|].
  cbn [length Nat.eqb orb].
  unfold bind, lift, ret.
  destruct (build_estimator (r :: rs)) as [self|e]; [|reflexivity].
  cbn [rbind].
  pose proof (value_properties_fst self valuation_params (b :: bs) [] w) as H.
  remember (kept_valuations linear_nd self valuation_params (b :: bs)) as K eqn:EK.
  clear EK.
  destruct (value_properties linear_nd self valuation_params (b :: bs) [] w)
    as [[vs|e] w'];
    destruct K as [kept|e']; cbn [fst rbind app] in *; congruence.
Qed.

Lemma make_valuation_property (self : Estimator) (valuation_params : ValuationParameters)
    (p : Property) (v : Valuation) :
  make_valuation linear_nd self valuation_params p = Ok v -> property v = p.
Proof.
  unfold make_valuation. intros H.
  destruct (get_height linear_nd self _ _); [|discriminate].
  destruct (get_score linear_nd self p valuation_params); [|discriminate].
  simpl in H. injection H as <-. reflexivity.
Qed.

(** The valuations kept belong to candidates of the batch, in batch order. *)
Lemma kept_valuations_sublist (self : Estimator) (valuation_params : ValuationParameters)
    (buy_properties : list Property) :
  forall kept,
  kept_valuations linear_nd self valuation_params buy_properties = Ok kept ->
  sublist (map property kept) buy_properties.
Proof.
  induction buy_properties as [|p rest IH]; simpl; intros kept H.
  - injection H as <-. constructor.
  - destruct (make_valuation linear_nd self valuation_params p) as [v|e] eqn:E.
    + destruct (kept_valuations linear_nd self valuation_params rest) as [vs|];
        [|discriminate].
      simpl in H. injection H as <-. simpl.
      rewrite (make_valuation_property _ _ _ _ E).
      apply sublist_skip, IH. reflexivity.
    + destruct (is_ValueError e); [|discriminate].
      apply sublist_cons, IH, H.
Qed.

Lemma StronglySorted_weaken {A : Type} (R R' : A -> A -> Prop) (l : list A) :
  (forall a b, R a b -> R' a b) -> StronglySorted R l -> StronglySorted R' l.
Proof.
  intros HR. induction 1 as [|x l Hs IH Hx]; constructor.
  - exact IH.
  - eapply List.Forall_impl; [|exact Hx]. intros; apply HR; assumption.
Qed.

(** What the loop keeps, candidate by candidate: the valuation of each
    candidate that can be valued, in the order of the candidates. *)
Lemma kept_valuations_scored (self : Estimator) (valuation_params : ValuationParameters)
    (buy_properties : list Property) (valuations : list Valuation) :
  kept_valuations linear_nd self valuation_params buy_properties = Ok valuations ->
  valuations =
  flat_map (fun candidate =>
              match make_valuation linear_nd self valuation_params candidate with
              | Ok valuation => [valuation]
              | Raise _ => []
              end) buy_properties.
Proof.
  revert valuations.
  induction buy_properties as [|p ps IH]; intros valuations H; cbn in H.
  - injection H as <-. reflexivity.
  - cbn [flat_map].
    destruct (make_valuation linear_nd self valuation_params p) as [v|e].
    + destruct (kept_valuations linear_nd self valuation_params ps) as [vs|e];
        [|discriminate H].
      cbn in H. injection H as <-. cbn [app]. f_equal. apply IH. reflexivity.
    + destruct (is_ValueError e); [|discriminate H]. cbn [app]. apply IH, H.
Qed.

(** C4.  The list [_get_valuation] returns is in descending order of
    [return_on_investment].  It is empty when there is no rental or no
    candidate; otherwise it is a rearrangement of the valuations of the
    candidates that could be valued (each made of the candidate, its
    estimate and its score), and valuations with equal
    [return_on_investment] appear in the relative order their candidates had
    in the purchase listing sequence (the sort is stable).  In particular,
    when the candidates are A, B, C, in this order, and their scores are
    9.1, 5.0 and 9.1, the list returned is A, C, B. *)
Theorem ranking_sorted_and_stable (rent_properties buy_properties : list Property)
    (valuation_params : ValuationParameters) (w : World) (ranked : list Valuation) :
  fst (_get_valuation linear_nd rent_properties buy_properties valuation_params w)
    = Ok ranked ->
  StronglySorted
    (fun a b => (return_on_investment b <= return_on_investment a)%Q) ranked /\
  (rent_properties = [] \/ buy_properties = [] -> ranked = []) /\
  (rent_properties <> [] -> buy_properties <> [] ->
   exists self : Estimator,
     build_estimator rent_properties = Ok self /\
     let valuations :=
       flat_map (fun candidate =>
                   match make_valuation linear_nd self valuation_params candidate with
                   | Ok valuation => [valuation]
                   | Raise _ => []
                   end) buy_properties in
     Permutation ranked valuations /\
     (forall roi : Q,
        List.filter (fun v => Qeq_bool (return_on_investment v) roi) ranked =
        List.filter (fun v => Qeq_bool (return_on_investment v) roi) valuations) /\
     (forall (A B C : Property) (a b c : Valuation),
        buy_properties = [A; B; C] ->
        make_valuation linear_nd self valuation_params A = Ok a ->
        make_valuation linear_nd self valuation_params B = Ok b ->
        make_valuation linear_nd self valuation_params C = Ok c ->
        (return_on_investment a == 9.1)%Q ->
        (return_on_investment b == 5.0)%Q ->
        (return_on_investment c == 9.1)%Q ->
        ranked = [a; c; b])).
Proof.
  intros H. rewrite _get_valuation_fst in H.
  destruct rent_properties as [|r rs].
  { injection H as <-. split; [constructor|]. split; [reflexivity|].
    intros Hrent. contradiction. }
  destruct buy_properties as [|p ps].
  { injection H as <-. split; [constructor|]. split; [reflexivity|].
    intros _ Hbuy. contradiction. }
  destruct (build_estimator (r :: rs)) as [self|]; [|discriminate].
  cbn [rbind] in H.
  destruct (kept_valuations linear_nd self valuation_params (p :: ps))
    as [vs|] eqn:E; [|discriminate].
  injection H as <-. apply kept_valuations_scored in E.
  split; [|split].
  - eapply StronglySorted_weaken; [|apply sorted_StronglySorted].
    unfold key_le, ranking_key. intros a b Hab.
    apply Qopp_le_compat in Hab. rewrite !Qopp_involutive in Hab. exact Hab.
  - intros [Hnil | Hnil]; discriminate Hnil.
  - intros _ _. exists self. split; [reflexivity|]. cbv zeta. rewrite <- E.
    split; [apply sorted_perm|]. split.
    + intros roi.
      rewrite (List.filter_ext _ (fun v => Qeq_bool (ranking_key v) (- roi))).
      * rewrite sorted_stable. apply List.filter_ext. intros v.
        unfold ranking_key. apply eq_true_iff_eq.
        rewrite !Qeq_bool_iff. split; intros E'.
        -- rewrite <- (Qopp_involutive (return_on_investment v)), E'.
           apply Qopp_involutive.
        -- rewrite E'. reflexivity.
      * intros v. unfold ranking_key. apply eq_true_iff_eq.
        rewrite !Qeq_bool_iff. split; intros E'.
        -- rewrite E'. reflexivity.
        -- rewrite <- (Qopp_involutive (return_on_investment v)), E'.
           apply Qopp_involutive.
    + intros A B C a b c HABC Ha Hb Hc Hra Hrb Hrc.
      injection HABC as -> ->. subst vs. cbn [flat_map].
      rewrite Ha, Hb, Hc. cbn [app].
      unfold sorted, ranking_key. simpl.
      rewrite Hrb, Hrc. simpl. rewrite Hra, Hrc. reflexivity.
Qed.

(** Rentals on one meridian and a candidate to value: the first valuation
    raises an error of Qhull, which the loop of [_get_valuation] does not
    catch. *)
Lemma _get_valuation_same_longitude (rent_properties buy_properties : list Property)
    (valuation_params : ValuationParameters) (self : Estimator) (lon : Q) (w : World) :
  build_estimator rent_properties = Ok self ->
  Forall (fun p => (longitude (geo_location p) == lon)%Q) rent_properties ->
  buy_properties <> [] ->
  fst (_get_valuation linear_nd rent_properties buy_properties valuation_params w) =
  Raise (QhullError "QH6154 Qhull precision error: Initial simplex is flat").
Proof.
  intros Hself Hlon Hbuy. rewrite _get_valuation_fst.
  destruct rent_properties as [|r rs]; [vm_compute in Hself; discriminate Hself|].
  destruct buy_properties as [|b bs]; [contradiction|].
  rewrite Hself. cbn [rbind kept_valuations]. unfold make_valuation.
  rewrite (same_longitude_raises linear_nd _ _ lon _ _ Hself Hlon).
  reflexivity.
Qed.

(** C6.  With one rental listing on the market and a mortgage rate of zero,
    scoring a candidate does not end in the degenerate-rate error: the
    estimate is taken first, its five coincident points make Qhull fail, and
    [get_score] raises that error.  It is not a [ValueError], so the loop of
    [_get_valuation] does not drop the candidate: the ranking itself raises,
    whatever the other candidates are. *)
Theorem zero_rate_single_rental_aborts_ranking (listing candidate : Property)
    (candidates : list Property) (valuation_params : ValuationParameters) (w : World) :
  (mortgage_interest_rate valuation_params == 0)%Q ->
  exists self : Estimator,
    build_estimator [listing] = Ok self /\
    get_score linear_nd self candidate valuation_params =
      Raise (QhullError "QH6154 Qhull precision error: Initial simplex is flat") /\
    is_ValueError
      (QhullError "QH6154 Qhull precision error: Initial simplex is flat") = false /\
    fst (_get_valuation linear_nd [listing] (candidate :: candidates)
           valuation_params w) =
      Raise (QhullError "QH6154 Qhull precision error: Initial simplex is flat").
Proof.
  intros _.
  destruct (build_estimator_single listing) as (self & Hself & _ & _ & _).
  assert (Hlon : Forall (fun p => (longitude (geo_location p)
                                   == longitude (geo_location listing))%Q) [listing]).
  { constructor; [reflexivity | constructor]. }
  exists self. split; [exact Hself|]. split; [|split].
  - unfold get_score.
    rewrite (same_longitude_raises linear_nd _ _ _ _ _ Hself Hlon). reflexivity.
  - reflexivity.
  - apply (_get_valuation_same_longitude _ _ _ self
             (longitude (geo_location listing))); [exact Hself | exact Hlon |].
    discriminate.
Qed.

End RankingProofs.


(** Candidates A, B, C whose scores are 9.1, 5.0 and 9.1 are ranked A, C,
    B. *)
Lemma ranking_sorted_and_stable_witness :
  StronglySorted
    (fun a b => (return_on_investment b <= return_on_investment a)%Q)
    acb_ranked /\
  exists self : Estimator,
    build_estimator example_rentals = Ok self /\
    let valuations :=
      flat_map (fun candidate =>
                  match make_valuation rent_by_longitude self cash_params
                          candidate with
                  | Ok valuation => [valuation]
                  | Raise _ => []
                  end) abc_candidates in
    Permutation acb_ranked valuations /\
    (forall roi : Q,
       List.filter (fun v => Qeq_bool (return_on_investment v) roi) acb_ranked =
       List.filter (fun v => Qeq_bool (return_on_investment v) roi) valuations) /\
    (forall (A B C : Property) (a b c : Valuation),
       abc_candidates = [A; B; C] ->
       make_valuation rent_by_longitude self cash_params A = Ok a ->
       make_valuation rent_by_longitude self cash_params B = Ok b ->
       make_valuation rent_by_longitude self cash_params C = Ok c ->
       (return_on_investment a == 9.1)%Q ->
       (return_on_investment b == 5.0)%Q ->
       (return_on_investment c == 9.1)%Q ->
       acb_ranked = [a; c; b]).
Proof.
  assert (H : fst (_get_valuation rent_by_longitude example_rentals abc_candidates
                     cash_params example_world) = Ok acb_ranked)
    by (vm_compute; reflexivity).
  split.
  - exact (proj1 (ranking_sorted_and_stable rent_by_longitude example_rentals
                    abc_candidates cash_params example_world
                    acb_ranked H)).
  - apply (proj2 (proj2 (ranking_sorted_and_stable rent_by_longitude example_rentals
                           abc_candidates cash_params example_world
                           acb_ranked H))); discriminate.
Defined.

(** One rental listing, a rate of zero, the three example candidates. *)
Lemma zero_rate_single_rental_aborts_ranking_witness :
  exists self : Estimator,
    build_estimator [listing "r1" 1000 0 0 RENT] = Ok self /\
    get_score outside_hull self (listing "b1" 200000 (1 # 2) (1 # 4) BUY)
      zero_rate_params =
      Raise (QhullError "QH6154 Qhull precision error: Initial simplex is flat") /\
    is_ValueError
      (QhullError "QH6154 Qhull precision error: Initial simplex is flat") = false /\
    fst (_get_valuation outside_hull [listing "r1" 1000 0 0 RENT]
           (listing "b1" 200000 (1 # 2) (1 # 4) BUY
            :: [listing "b2" 250000 5 5 BUY;
                listing "b3" 200000 (1 # 2) (1 # 4) BUY])
           zero_rate_params example_world) =
      Raise (QhullError "QH6154 Qhull precision error: Initial simplex is flat").
Proof.
  apply (zero_rate_single_rental_aborts_ranking outside_hull
           (listing "r1" 1000 0 0 RENT) (listing "b1" 200000 (1 # 2) (1 # 4) BUY)
           [listing "b2" 250000 5 5 BUY; listing "b3" 200000 (1 # 2) (1 # 4) BUY]
           zero_rate_params example_world).
  reflexivity.
Defined.

(* ===================================================================== *)
(** * Proofs: the cache payload *)
(* ===================================================================== *)

Lemma PurchaseCategory_of_value_value (c : PurchaseCategory) :
  PurchaseCategory_of_value (PurchaseCategory_value c) = Ok c.
Proof. destruct c; reflexivity. Qed.

(** Decoding a record inverts encoding it. *)
Lemma valuation_of_obj_to_obj (valuation : Valuation) :
  valuation_of_obj (valuation_to_obj valuation) = Ok valuation.
Proof.
  destruct valuation as [[i a p [la lo] c u] e r].
  unfold valuation_of_obj, valuation_to_obj, require_key. cbn.
  rewrite PurchaseCategory_of_value_value. reflexivity.
Qed.

Lemma valuations_of_objs_to_obj (valuations : list Valuation) :
  valuations_of_objs (map valuation_to_obj valuations) = Ok valuations.
Proof.
  induction valuations as [|v vs IH]; [reflexivity|].
  cbn [map valuations_of_objs]. rewrite valuation_of_obj_to_obj, IH. reflexivity.
Qed.

(** What [rank_properties] stores decodes, through the [json.loads] of
    [Cache.get], to what it encoded. *)
Lemma payload_round_trip (valuations : list Valuation) :
  rbind (json_loads (json_dumps (JStr (_convert_valuations_to_payload valuations))))
        _convert_payload_to_valuations
  = Ok valuations.
Proof.
  rewrite json_loads_dumps. cbn [rbind].
  unfold _convert_payload_to_valuations, _convert_valuations_to_payload.
  rewrite json_loads_dumps. cbn [rbind]. apply valuations_of_objs_to_obj.
Qed.

(** A record that decodes has every mandatory field. *)
Lemma valuation_of_obj_fields (o : list (string * json)) (valuation : Valuation) :
  valuation_of_obj (JObj o) = Ok valuation ->
  (forall field, In field mandatory_fields -> dict_get field o <> None) /\
  (exists g, dict_get "geo_location" o = Some (JObj g) /\
             dict_get "latitude" g <> None /\ dict_get "longitude" g <> None).
Proof.
  unfold valuation_of_obj, require_key. intros H.
  destruct (dict_get "identifier" o) eqn:E1; [|discriminate H].
  destruct (dict_get "display_address" o) eqn:E2; [|discriminate H].
  destruct (dict_get "price" o) eqn:E3; [|discriminate H].
  destruct (dict_get "geo_location" o) as [geo|] eqn:E4; [|discriminate H].
  cbn [rbind] in H.
  destruct geo as [| |?|g]; try discriminate H. cbn [rbind] in H.
  destruct (dict_get "latitude" g) eqn:E5; [|discriminate H].
  destruct (dict_get "longitude" g) eqn:E6; [|discriminate H].
  destruct (dict_get "purchase_category" o) eqn:E7; [|discriminate H].
  destruct (dict_get "estimated_rental_income" o) eqn:E8; [|discriminate H].
  destruct (dict_get "return_on_investment" o) eqn:E9; [|discriminate H].
  destruct (dict_get "image_url" o) eqn:E10; [|discriminate H].
  split.
  - intros field Hin. unfold mandatory_fields in Hin. simpl in Hin.
    repeat (destruct Hin as [<- | Hin]; [congruence|]). contradiction.
  - exists g. repeat split; congruence.
Qed.

Lemma valuations_of_objs_app_Ok (before after : list json) (obj : json)
    (valuations : list Valuation) :
  valuations_of_objs (before ++ obj :: after) = Ok valuations ->
  exists valuation, valuation_of_obj obj = Ok valuation.
Proof.
  revert valuations. induction before as [|b before IH]; intros valuations H.
  - cbn [app valuations_of_objs] in H.
    destruct (valuation_of_obj obj) as [v|]; [eauto | discriminate H].
  - cbn [app valuations_of_objs] in H.
    destruct (valuation_of_obj b); [|discriminate H]. cbn [rbind] in H.
    destruct (valuations_of_objs (before ++ obj :: after)) eqn:E;
      [|discriminate H].
    eapply IH. reflexivity.
Qed.

(** A record lacks a mandatory field: a key of the record, or a coordinate
    of its [geo_location]. *)
Lemma missing_field_raises (before after : list json) (o : list (string * json)) :
  (exists field, In field mandatory_fields /\ dict_get field o = None) \/
  (exists g, dict_get "geo_location" o = Some (JObj g) /\
             (dict_get "latitude" g = None \/ dict_get "longitude" g = None)) ->
  exists e,
    _convert_payload_to_valuations
      (JStr (json_dumps (JArr (before ++ JObj o :: after)))) = Raise e.
Proof.
  intros Hmissing.
  unfold _convert_payload_to_valuations. rewrite json_loads_dumps. cbn [rbind].
  destruct (valuations_of_objs (before ++ JObj o :: after)) as [vs|e] eqn:E;
    [|eauto].
  exfalso. apply valuations_of_objs_app_Ok in E as [v Hv].
  apply valuation_of_obj_fields in Hv as [Hall (g & Hg & Hlat & Hlon)].
  destruct Hmissing as [(field & Hin & Hnone) | (g' & Hg' & Hnone)].
  - exact (Hall field Hin Hnone).
  - rewrite Hg in Hg'. injection Hg' as <-. destruct Hnone; contradiction.
Qed.

(** The Redis commands when no failure is scheduled. *)
Lemma redis_set_ok (key value : string) (expiry : Z) (r : Redis) :
  faults r = [] ->
  redis_set key value expiry r =
  (Ok tt, {| clock := clock r;
             faults := [];
             keyspace := <[key := (value, (clock r + expiry)%Z)]> (keyspace r) |}).
Proof.
  intros H. unfold redis_set, next_fault. rewrite H. cbn. rewrite H. reflexivity.
Qed.

Lemma redis_get_ok (key : string) (r : Redis) :
  faults r = [] ->
  redis_get key r =
  (Ok match keyspace r !! key with
      | Some (value, expires) => if (clock r <? expires)%Z then Some value else None
      | None => None
      end, r).
Proof. intros H. unfold redis_get, next_fault. rewrite H. reflexivity. Qed.

(** C8.  A list of valuations is encoded with
    [_convert_valuations_to_payload], stored as [rank_properties] stores it
    (through [Cache.set], with the time-to-live of 30 minutes) and read back
    through [Cache.get] before it expires, the cache being reachable: the
    write succeeds, the read returns a payload, and
    [_convert_payload_to_valuations] turns it into the original list, equal
    record by record and in the same order.  In particular decoding the
    records that the encoder builds gives the records back. *)
Theorem cache_round_trip (valuations : list Valuation) (key : string) (r : Redis)
    (seconds : Z) :
  faults r = [] ->
  (0 <= seconds < 30 * 60)%Z ->
  let payload := _convert_valuations_to_payload valuations in
  let stored := Cache_set key (json_dumps (JStr payload)) (30 * 60) r in
  fst stored = Ok tt /\
  (exists got,
     fst (Cache_get key (elapse seconds (snd stored))) = Ok (Some got) /\
     _convert_payload_to_valuations got = Ok valuations) /\
  valuations_of_objs (map valuation_to_obj valuations) = Ok valuations.
Proof.
  intros Hfaults Hseconds payload stored. subst stored.
  unfold Cache_set. rewrite (redis_set_ok _ _ _ _ Hfaults). cbn [fst snd].
  split; [reflexivity|]. split; [|apply valuations_of_objs_to_obj].
  exists (JStr payload).
  unfold Cache_get. rewrite redis_get_ok by reflexivity.
  unfold elapse. cbn [faults keyspace clock]. rewrite lookup_insert_eq.
  replace (clock r + seconds <? clock r + 30 * 60)%Z with true
    by (symmetry; apply Z.ltb_lt; lia).
  rewrite json_loads_dumps. cbn [fst]. split; [reflexivity|].
  pose proof (payload_round_trip valuations) as H.
  rewrite json_loads_dumps in H. exact H.
Qed.

(** Once the 30 minutes have passed the entry is gone. *)
Lemma cache_entry_expires (key value : string) (r : Redis) (seconds : Z) :
  faults r = [] ->
  (30 * 60 <= seconds)%Z ->
  fst (Cache_get key (elapse seconds (snd (Cache_set key value (30 * 60) r))))
  = Ok None.
Proof.
  intros Hfaults Hseconds.
  unfold Cache_set. rewrite (redis_set_ok _ _ _ _ Hfaults). cbn [snd].
  unfold Cache_get. rewrite redis_get_ok by reflexivity.
  unfold elapse. cbn [faults keyspace clock]. rewrite lookup_insert_eq.
  replace (clock r + seconds <? clock r + 30 * 60)%Z with false
    by (symmetry; apply Z.ltb_ge; lia).
  reflexivity.
Qed.

(** The example ranking survives ten minutes in an empty cache. *)
Lemma cache_round_trip_witness :
  fst (Cache_set "k" (json_dumps (JStr (_convert_valuations_to_payload example_ranked)))
         (30 * 60) empty_redis) = Ok tt /\
  (exists got,
     fst (Cache_get "k"
            (elapse 600
               (snd (Cache_set "k"
                       (json_dumps (JStr (_convert_valuations_to_payload example_ranked)))
                       (30 * 60) empty_redis)))) = Ok (Some got) /\
     _convert_payload_to_valuations got = Ok example_ranked) /\
  valuations_of_objs (map valuation_to_obj example_ranked) = Ok example_ranked.
Proof.
  apply (cache_round_trip example_ranked "k" empty_redis 600).
  - reflexivity.
  - lia.
Defined.

(* ===================================================================== *)
(** * Proofs: the cache-aside controller *)
(* ===================================================================== *)

Section OrchestratorProofs.

Variable linear_nd : list (Q * Q) -> list Q -> Q * Q -> option Q.
Variable find_properties : M (list Property).

(** What the lookup finds: the decoded list on a hit, nothing on a miss, on a
    failure of the cache and on a payload that does not decode. *)
Lemma load_from_cache_run (key : string) (w : World) :
  exists h,
    load_from_cache key w =
    (Ok match Cache_get key (cache w) with
        | (Ok (Some payload), _) =>
            match _convert_payload_to_valuations payload with
            | Ok valuations => Some valuations
            | Raise _ => None
            end
        | _ => None
        end,
     {| params := params w;
        cache := snd (Cache_get key (cache w));
        history := h |}).
Proof.
  unfold load_from_cache, bind, try_except, info, warning, log, on_cache, lift, ret.
  cbn [params cache history].
  destruct (Cache_get key (cache w)) as [[[payload|]|e] c]; cbn.
  - destruct (_convert_payload_to_valuations payload); cbn; eexists; reflexivity.
  - eexists; reflexivity.
  - eexists; reflexivity.
Qed.

(** The write to the cache does not raise and leaves the parameters alone. *)
Lemma save_to_cache_run (key : string) (valuations : list Valuation) (w : World) :
  exists c h,
    save_to_cache key valuations w =
    (Ok tt, {| params := params w; cache := c; history := h |}).
Proof.
  unfold save_to_cache, bind, try_except, info, warning, log, on_cache.
  cbn [params cache history].
  destruct (Cache_set key _ (30 * 60) (cache w)) as [[[]|e] c]; cbn;
    eexists _, _; reflexivity.
Qed.

(** The course of a request. *)
Lemma rank_properties_run (valuation_params : ValuationParameters) (w : World) :
  let self := set_purchase_category BUY (params w) in
  let key := cache_key (to_url self) valuation_params in
  exists h,
    let w1 := {| params := self;
                 cache := snd (Cache_get key (cache w));
                 history := h |} in
    match match Cache_get key (cache w) with
          | (Ok (Some payload), _) =>
              match _convert_payload_to_valuations payload with
              | Ok valuations => Some valuations
              | Raise _ => None
              end
          | _ => None
          end with
    | Some valuations =>
        rank_properties linear_nd find_properties valuation_params w
        = (Ok valuations, w1)
    | None =>
        match create_valuations linear_nd find_properties valuation_params w1 with
        | (Ok valuations, w2) =>
            exists c' h',
              rank_properties linear_nd find_properties valuation_params w
              = (Ok valuations,
                 {| params := params w2; cache := c'; history := h' |})
        | (Raise e, w2) =>
            rank_properties linear_nd find_properties valuation_params w
            = (Raise e, w2)
        end
    end.
Proof.
  intros self key. subst self key.
  unfold rank_properties, bind, info, log, to_buy. cbn [params cache history].
  match goal with
  | |- context [load_from_cache ?k ?w0] =>
      destruct (load_from_cache_run k w0) as [h Hload]
  end.
  exists h. rewrite Hload. cbn [params cache history].
  destruct (Cache_get _ (cache w)) as [[[payload|]|e] c];
    cbn [snd]; try destruct (_convert_payload_to_valuations payload);
    try reflexivity;
    (destruct (create_valuations linear_nd find_properties valuation_params _)
       as [[vs|e'] w2]; [|reflexivity];
     destruct (save_to_cache_run
                 (cache_key (to_url (set_purchase_category BUY (params w)))
                            valuation_params) vs w2) as (c' & h' & ->);
     exists c', h'; reflexivity).
Qed.

(** [_get_valuation] writes to the log only. *)
Lemma _get_valuation_frame (rent_properties buy_properties : list Property)
    (valuation_params : ValuationParameters) (w : World) :
  let w' := snd (_get_valuation linear_nd rent_properties buy_properties
                   valuation_params w) in
  params w' = params w /\ cache w' = cache w.
Proof.
  unfold _get_valuation.
  destruct ((length rent_properties =? 0)%nat || (length buy_properties =? 0)%nat);
    [cbn; auto|].
  unfold bind, lift, ret.
  destruct (build_estimator rent_properties) as [self|e]; [|cbn; auto].
  pose proof (value_properties_frame linear_nd self valuation_params
                buy_properties [] w) as H.
  destruct (value_properties linear_nd self valuation_params buy_properties [] w)
    as [[vs|e] w']; exact H.
Qed.

(** With no rental or no purchase listing [_get_valuation] returns the empty
    list at once: nothing is logged, nothing is computed. *)
Lemma _get_valuation_empty (rent_properties buy_properties : list Property)
    (valuation_params : ValuationParameters) (w : World) :
  rent_properties = [] \/ buy_properties = [] ->
  _get_valuation linear_nd rent_properties buy_properties valuation_params w
  = (Ok [], w).
Proof.
  intros [-> | ->]; unfold _get_valuation.
  - reflexivity.
  - cbn [length Nat.eqb]. rewrite orb_true_r. reflexivity.
Qed.

(** A key that is not in the cache is not found. *)
Lemma Cache_get_absent (key : string) (c : Redis) :
  keyspace c !! key = None ->
  fst (Cache_get key c) = Ok None \/ exists e, fst (Cache_get key c) = Raise e.
Proof.
  intros H. unfold Cache_get, redis_get, next_fault.
  destruct (faults c) as [|[] fs]; cbn [keyspace]; rewrite ?H; cbn; eauto.
Qed.

(** If the search engine leaves the parameters alone, they are on BUY after
    the two fetches. *)
Lemma create_valuations_params (valuation_params : ValuationParameters)
    (w : World) (valuations : list Valuation) (w' : World) :
  (forall w0, params (snd (find_properties w0)) = params w0) ->
  create_valuations linear_nd find_properties valuation_params w
  = (Ok valuations, w') ->
  params w' = set_purchase_category BUY (params w).
Proof.
  intros Hfind. unfold create_valuations, bind, info, log, to_rent, to_buy.
  cbn [params cache history].
  match goal with |- context [find_properties ?w0] =>
    pose proof (Hfind w0) as H1; destruct (find_properties w0) as [[rs|e] wa]
  end; [|discriminate].
  cbn [snd params] in H1.
  match goal with |- context [find_properties ?w0] =>
    pose proof (Hfind w0) as H2; destruct (find_properties w0) as [[bs|e] wb]
  end; [|discriminate].
  cbn [snd params] in H2. intros H.
  pose proof (_get_valuation_frame rs bs valuation_params wb) as [Hp _].
  rewrite H in Hp. cbn [snd] in Hp. rewrite Hp, H2, H1. reflexivity.
Qed.

(** C10.  [rank_properties] updates the [SearchParameters] object it was
    given (the search engine being one that leaves the object alone, as
    [SearchEngine.find_properties] does): when it returns, the caller's
    object has [purchase_category] BUY, whatever it held before, and every
    other field is as it was. *)
Theorem rank_properties_sets_buy (valuation_params : ValuationParameters)
    (w w' : World) (valuations : list Valuation) :
  (forall w0, params (snd (find_properties w0)) = params w0) ->
  rank_properties linear_nd find_properties valuation_params w
    = (Ok valuations, w') ->
  params w' = set_purchase_category BUY (params w) /\
  params_purchase_category (params w') = BUY /\
  location_name (params w') = location_name (params w) /\
  location_id (params w') = location_id (params w) /\
  radius (params w') = radius (params w) /\
  min_price (params w') = min_price (params w) /\
  max_price (params w') = max_price (params w) /\
  min_bedrooms (params w') = min_bedrooms (params w) /\
  max_bedrooms (params w') = max_bedrooms (params w) /\
  max_days_since_added (params w') = max_days_since_added (params w) /\
  property_types (params w') = property_types (params w) /\
  must_have (params w') = must_have (params w) /\
  dont_show (params w') = dont_show (params w) /\
  furnish_types (params w') = furnish_types (params w).
Proof.
  intros Hfind Hrun.
  assert (Hp : params w' = set_purchase_category BUY (params w)).
  { destruct (rank_properties_run valuation_params w) as [h Hcases].
    cbv zeta in Hcases.
    match type of Hcases with
    | match ?found with _ => _ end => destruct found as [vs|]
    end.
    - rewrite Hcases in Hrun. injection Hrun as _ <-. reflexivity.
    - match type of Hcases with
      | match ?run with _ => _ end => destruct run as [[vs|e] w2] eqn:Ecreate
      end.
      + destruct Hcases as (c' & h' & Hcases). rewrite Hcases in Hrun.
        injection Hrun as _ <-. cbn [params].
        rewrite (create_valuations_params _ _ _ _ Hfind Ecreate). reflexivity.
      + rewrite Hcases in Hrun. discriminate Hrun. }
  rewrite Hp. repeat split.
Qed.

(** C7.  On a cache miss (no entry under the key of the request), with a
    search engine that answers and whose rental set or purchase set is
    empty, [rank_properties] returns the empty list and does not raise.
    [_get_valuation] returns it at once, leaving the world as it found it:
    neither the outlier filter, nor the construction of the estimator, nor
    the scorer runs. *)
Theorem empty_listings_rank_empty (valuation_params : ValuationParameters)
    (w : World) (rentals candidates : list Property) :
  keyspace (cache w)
    !! cache_key (to_url (set_purchase_category BUY (params w))) valuation_params
    = None ->
  (forall w0, exists w1,
     find_properties w0 =
     (Ok match params_purchase_category (params w0) with
         | RENT => rentals
         | BUY => candidates
         end, w1)) ->
  rentals = [] \/ candidates = [] ->
  fst (rank_properties linear_nd find_properties valuation_params w) = Ok [] /\
  (forall w0,
     _get_valuation linear_nd rentals candidates valuation_params w0 = (Ok [], w0)).
Proof.
  intros Habsent Hfind Hempty.
  split; [|intros w0; apply _get_valuation_empty, Hempty].
  destruct (rank_properties_run valuation_params w) as [h Hcases].
  cbv zeta in Hcases.
  assert (Hmiss :
    match Cache_get
            (cache_key (to_url (set_purchase_category BUY (params w)))
                       valuation_params) (cache w) with
    | (Ok (Some payload), _) =>
        match _convert_payload_to_valuations payload with
        | Ok valuations => Some valuations
        | Raise _ => None
        end
    | _ => None
    end = None).
  { destruct (Cache_get_absent _ _ Habsent) as [E | [e E]];
      destruct (Cache_get _ (cache w)) as [[[payload|]|e'] c];
      cbn [fst] in E; try discriminate E; reflexivity. }
  rewrite Hmiss in Hcases.
  assert (Hcreate : forall w1,
    fst (create_valuations linear_nd find_properties valuation_params w1) = Ok []).
  { intros w1. unfold create_valuations, bind, info, log, to_rent, to_buy.
    cbn [params cache history].
    match goal with |- context [find_properties ?w0] =>
      destruct (Hfind w0) as [wa ->]
    end.
    cbn [params params_purchase_category set_purchase_category].
    match goal with |- context [find_properties ?w0] =>
      destruct (Hfind w0) as [wb ->]
    end.
    cbn [params params_purchase_category set_purchase_category].
    rewrite (_get_valuation_empty _ _ _ _ Hempty). reflexivity. }
  match type of Hcases with
  | match create_valuations _ _ _ ?w1 with _ => _ end =>
      pose proof (Hcreate w1) as Hc;
      destruct (create_valuations linear_nd find_properties valuation_params w1)
        as [[vs|e] w2]
  end; cbn [fst] in Hc.
  - destruct Hcases as (c' & h' & ->). exact Hc.
  - discriminate Hc.
Qed.

(** C9.  A failure of the cache does not leave [rank_properties].  Whether
    [Cache.get] raises, finds nothing, or returns a payload that
    [_convert_payload_to_valuations] rejects, the request returns what the
    recomputation ([create_valuations]) returns; a payload with a record
    that lacks a mandatory field is rejected; and the write that follows the
    computation never raises, so that the computed list is returned whether
    or not it could be stored. *)
Theorem cache_failures_do_not_propagate (valuation_params : ValuationParameters)
    (w : World) :
  let self := set_purchase_category BUY (params w) in
  let key := cache_key (to_url self) valuation_params in
  (exists h,
     let w1 := {| params := self;
                  cache := snd (Cache_get key (cache w));
                  history := h |} in
     let recomputed :=
       fst (rank_properties linear_nd find_properties valuation_params w) =
       fst (create_valuations linear_nd find_properties valuation_params w1) in
     match Cache_get key (cache w) with
     | (Ok (Some payload), _) =>
         match _convert_payload_to_valuations payload with
         | Ok valuations =>
             fst (rank_properties linear_nd find_properties valuation_params w)
             = Ok valuations
         | Raise _ => recomputed
         end
     | (Ok None, _) => recomputed
     | (Raise _, _) => recomputed
     end) /\
  (forall (before after : list json) (o : list (string * json)),
     (exists field, In field mandatory_fields /\ dict_get field o = None) \/
     (exists g, dict_get "geo_location" o = Some (JObj g) /\
                (dict_get "latitude" g = None \/ dict_get "longitude" g = None)) ->
     exists e,
       _convert_payload_to_valuations
         (JStr (json_dumps (JArr (before ++ JObj o :: after)))) = Raise e) /\
  (forall (k : string) (valuations : list Valuation) (w0 : World),
     fst (bind (save_to_cache k valuations) (fun _ => ret valuations) w0)
     = Ok valuations).
Proof.
  intros self key. split; [|split].
  - destruct (rank_properties_run valuation_params w) as [h Hcases].
    exists h. cbv zeta in *. fold self in Hcases. fold key in Hcases.
    destruct (Cache_get key (cache w)) as [[[payload|]|e] c];
      cbn [snd] in *;
      try destruct (_convert_payload_to_valuations payload);
      try (rewrite Hcases; reflexivity);
      (destruct (create_valuations linear_nd find_properties valuation_params _)
         as [[vs|e'] w2];
       [destruct Hcases as (c' & h' & ->) | rewrite Hcases]; reflexivity).
  - intros before after o. apply missing_field_raises.
  - intros k valuations w0. unfold bind.
    destruct (save_to_cache_run k valuations w0) as (c & h & ->). reflexivity.
Qed.

End OrchestratorProofs.


(** A request that starts on RENT and misses the cache ends on BUY. *)
Lemma rank_properties_sets_buy_witness :
  params_purchase_category (params example_world) = RENT /\
  params (snd example_request) = set_purchase_category BUY (params example_world).
Proof.
  split; [reflexivity|].
  refine (proj1 (rank_properties_sets_buy outside_hull
                   (example_find example_rentals example_candidates)
                   example_valuation_params example_world (snd example_request)
                   example_ranked (fun w0 => eq_refl) _)).
  transitivity (fst example_request, snd example_request).
  - apply surjective_pairing.
  - apply (f_equal (fun r => (r, snd example_request))).
    vm_compute. reflexivity.
Defined.

(** No candidate for sale: the example request on an empty cache returns the
    empty list. *)
Lemma empty_listings_rank_empty_witness :
  fst (rank_properties outside_hull (example_find example_rentals [])
         example_valuation_params example_world) = Ok [] /\
  (forall w0,
     _get_valuation outside_hull example_rentals [] example_valuation_params w0
     = (Ok [], w0)).
Proof.
  apply (empty_listings_rank_empty outside_hull (example_find example_rentals [])
           example_valuation_params example_world example_rentals []).
  - exact (lookup_empty _).
  - intros w0. exists w0. reflexivity.
  - right. reflexivity.
Defined.

(** A cached record without its price is rejected. *)
Lemma cache_failures_do_not_propagate_witness :
  exists e,
    _convert_payload_to_valuations
      (JStr (json_dumps (JArr ([] ++ JObj [("identifier", JStr "b1")] :: []))))
    = Raise e.
Proof.
  apply (proj1 (proj2 (cache_failures_do_not_propagate outside_hull
                         (example_find example_rentals example_candidates)
                         example_valuation_params example_world))).
  left. exists "price". split; [|reflexivity].
  unfold mandatory_fields. simpl. tauto.
Defined.

(* ===================================================================== *)
(** * Proofs: the search engine *)
(* ===================================================================== *)

Lemma property_of_obj_to_obj (p : Property) :
  property_of_obj (property_to_obj p) = Ok p.
Proof.
  destruct p as [i a pr [la lo] c u].
  unfold property_of_obj, property_to_obj, require_key. cbn.
  rewrite PurchaseCategory_of_value_value. reflexivity.
Qed.

Lemma properties_of_objs_to_obj (properties : list Property) :
  properties_of_objs (map property_to_obj properties) = Ok properties.
Proof.
  induction properties as [|p ps IH]; [reflexivity|].
  cbn [map properties_of_objs]. rewrite property_of_obj_to_obj, IH. reflexivity.
Qed.

(** The listings a search stores in the cache are the listings it reads back:
    encoded by [_convert_properties_to_payload], stored as [find_properties]
    stores them and read through [Cache.get] before the 30 minutes are over,
    they decode to the same records in the same order. *)
Theorem properties_cache_round_trip (properties : list Property) (key : string)
    (r : Redis) (seconds : Z) :
  faults r = [] ->
  (0 <= seconds < 30 * 60)%Z ->
  exists got,
    fst (Cache_get key
           (elapse seconds
              (snd (Cache_set key
                      (json_dumps (JStr (_convert_properties_to_payload properties)))
                      (30 * 60) r)))) = Ok (Some got) /\
    _convert_payload_to_properties got = Ok properties.
Proof.
  intros Hfaults Hseconds.
  exists (JStr (_convert_properties_to_payload properties)).
  unfold Cache_set. rewrite (redis_set_ok _ _ _ _ Hfaults). cbn [snd].
  unfold Cache_get. rewrite redis_get_ok by reflexivity.
  unfold elapse. cbn [faults keyspace clock]. rewrite lookup_insert_eq.
  replace (clock r + seconds <? clock r + 30 * 60)%Z with true
    by (symmetry; apply Z.ltb_lt; lia).
  rewrite json_loads_dumps. cbn [fst]. split; [reflexivity|].
  unfold _convert_payload_to_properties, _convert_properties_to_payload.
  rewrite json_loads_dumps. cbn [rbind]. apply properties_of_objs_to_obj.
Qed.

Lemma properties_cache_round_trip_witness :
  exists got,
    fst (Cache_get "k"
           (elapse 60
              (snd (Cache_set "k"
                      (json_dumps (JStr (_convert_properties_to_payload example_rentals)))
                      (30 * 60) empty_redis)))) = Ok (Some got) /\
    _convert_payload_to_properties got = Ok example_rentals.
Proof.
  apply (properties_cache_round_trip example_rentals "k" empty_redis 60).
  - reflexivity.
  - lia.
Defined.

(** A record that decodes to a property has every required key. *)
Lemma property_of_obj_fields (o : list (string * json)) (p : Property) :
  property_of_obj (JObj o) = Ok p ->
  (forall field, In field property_fields -> dict_get field o <> None) /\
  (exists g, dict_get "geo_location" o = Some (JObj g) /\
             dict_get "latitude" g <> None /\ dict_get "longitude" g <> None).
Proof.
  unfold property_of_obj, require_key. intros H.
  destruct (dict_get "identifier" o) eqn:E1; [|discriminate H].
  destruct (dict_get "display_address" o) eqn:E2; [|discriminate H].
  destruct (dict_get "price" o) eqn:E3; [|discriminate H].
  destruct (dict_get "geo_location" o) as [geo|] eqn:E4; [|discriminate H].
  cbn [rbind] in H.
  destruct geo as [| |?|g]; try discriminate H. cbn [rbind] in H.
  destruct (dict_get "latitude" g) eqn:E5; [|discriminate H].
  destruct (dict_get "longitude" g) eqn:E6; [|discriminate H].
  destruct (dict_get "purchase_category" o) eqn:E7; [|discriminate H].
  destruct (dict_get "image_url" o) eqn:E8; [|discriminate H].
  split.
  - intros field Hin. unfold property_fields in Hin. simpl in Hin.
    repeat (destruct Hin as [<- | Hin]; [congruence|]). contradiction.
  - exists g. repeat split; congruence.
Qed.

Lemma properties_of_objs_app_Ok (before after : list json) (obj : json)
    (properties : list Property) :
  properties_of_objs (before ++ obj :: after) = Ok properties ->
  exists p, property_of_obj obj = Ok p.
Proof.
  revert properties. induction before as [|b before IH]; intros properties H.
  - cbn [app properties_of_objs] in H.
    destruct (property_of_obj obj) as [p|]; [eauto | discriminate H].
  - cbn [app properties_of_objs] in H.
    destruct (property_of_obj b); [|discriminate H]. cbn [rbind] in H.
    destruct (properties_of_objs (before ++ obj :: after)) eqn:E;
      [|discriminate H].
    eapply IH. reflexivity.
Qed.

(** A cached list of listings in which one record lacks a required key (or a
    coordinate of its [geo_location]) does not decode: the decoder raises,
    wherever the record stands in the list. *)
Theorem properties_missing_field_raises (before after : list json)
    (o : list (string * json)) :
  (exists field, In field property_fields /\ dict_get field o = None) \/
  (exists g, dict_get "geo_location" o = Some (JObj g) /\
             (dict_get "latitude" g = None \/ dict_get "longitude" g = None)) ->
  exists e,
    _convert_payload_to_properties
      (JStr (json_dumps (JArr (before ++ JObj o :: after)))) = Raise e.
Proof.
  intros Hmissing.
  unfold _convert_payload_to_properties. rewrite json_loads_dumps. cbn [rbind].
  destruct (properties_of_objs (before ++ JObj o :: after)) as [ps|e] eqn:E;
    [|eauto].
  exfalso. apply properties_of_objs_app_Ok in E as [p Hp].
  apply property_of_obj_fields in Hp as [Hall (g & Hg & Hlat & Hlon)].
  destruct Hmissing as [(field & Hin & Hnone) | (g' & Hg' & Hnone)].
  - exact (Hall field Hin Hnone).
  - rewrite Hg in Hg'. injection Hg' as <-. destruct Hnone; contradiction.
Qed.

Lemma properties_missing_field_raises_witness :
  exists e,
    _convert_payload_to_properties
      (JStr (json_dumps
               (JArr ([property_to_obj example_home]
                      ++ JObj [("identifier", JStr "7"); ("price", JNum 5)] :: []))))
    = Raise e.
Proof.
  apply (properties_missing_field_raises [property_to_obj example_home] []).
  left. exists "image_url". split; [|reflexivity].
  unfold property_fields. simpl. tauto.
Defined.

(* ===================================================================== *)
(** * Proofs: pages and fetches *)
(* ===================================================================== *)



Section FetchProofs.

Variable _fetch_number_of_properties : string -> M Z.
Variable _fetch_property : string -> PurchaseCategory -> M (list Property).


(** A page request that fails ends the search: no partial list. *)
Lemma fetch_pages_raise (u : URL) (i : Z) (indexes : list Z)
    (properties : list Property) (w : World) (e : exn) :
  fst (_fetch_property (URL_value_page u (Some i) (Some max_properties_per_page))
         (url_purchase_category u) w) = Raise e ->
  fst (fetch_pages _fetch_property u (i :: indexes) properties w) = Raise e.
Proof.
  intros H. cbn [fetch_pages]. unfold bind.
  destruct (_fetch_property _ _ w) as [[page|e'] w1]; cbn [fst] in H;
    [discriminate H | exact H].
Qed.



End FetchProofs.


(* ===================================================================== *)
(** * Proofs: [find_properties] *)
(* ===================================================================== *)

Lemma load_properties_from_cache_run (key : string) (w : World) :
  exists h,
    load_properties_from_cache key w =
    (Ok match Cache_get key (cache w) with
        | (Ok (Some payload), _) =>
            match _convert_payload_to_properties payload with
            | Ok properties => Some properties
            | Raise _ => None
            end
        | _ => None
        end,
     {| params := params w;
        cache := snd (Cache_get key (cache w));
        history := h |}).
Proof.
  unfold load_properties_from_cache, bind, try_except, info, warning, log,
    on_cache, lift, ret.
  cbn [params cache history].
  destruct (Cache_get key (cache w)) as [[[payload|]|e] c]; cbn.
  - destruct (_convert_payload_to_properties payload); cbn; eexists; reflexivity.
  - eexists; reflexivity.
  - eexists; reflexivity.
Qed.

Lemma save_properties_to_cache_run (key : string) (properties : list Property)
    (w : World) :
  exists c h,
    save_properties_to_cache key properties w =
    (Ok tt, {| params := params w; cache := c; history := h |}).
Proof.
  unfold save_properties_to_cache, bind, try_except, info, warning, log, on_cache.
  cbn [params cache history].
  destruct (Cache_set key _ (30 * 60) (cache w)) as [[[]|e] c]; cbn;
    eexists _, _; reflexivity.
Qed.

Section FindProofs.

Variable _fetch_number_of_properties : string -> M Z.
Variable _fetch_property : string -> PurchaseCategory -> M (list Property).

Local Abbreviation find_properties :=
  (SearchEngine_find_properties _fetch_number_of_properties _fetch_property).
Local Abbreviation fetch_properties :=
  (_fetch_properties _fetch_number_of_properties _fetch_property).

(** The course of a search. *)
Lemma find_properties_run (w : World) :
  let u := to_url (params w) in
  let key := properties_key u in
  exists h,
    let w1 := {| params := params w;
                 cache := snd (Cache_get key (cache w));
                 history := h |} in
    match match Cache_get key (cache w) with
          | (Ok (Some payload), _) =>
              match _convert_payload_to_properties payload with
              | Ok properties => Some properties
              | Raise _ => None
              end
          | _ => None
          end with
    | Some properties => find_properties w = (Ok properties, w1)
    | None =>
        match fetch_properties u w1 with
        | (Ok properties, w2) =>
            exists c' h',
              find_properties w =
              (Ok properties, {| params := params w2; cache := c'; history := h' |})
        | (Raise e, w2) => find_properties w = (Raise e, w2)
        end
    end.
Proof.
  intros u key. subst u key.
  unfold SearchEngine_find_properties, bind, info, log. cbn [params cache history].
  match goal with
  | |- context [load_properties_from_cache ?k ?w0] =>
      destruct (load_properties_from_cache_run k w0) as [h0 Hload]
  end.
  rewrite Hload. cbn [params cache history].
  destruct (Cache_get _ (cache w)) as [[[payload|]|e] c];
    cbn [snd]; try destruct (_convert_payload_to_properties payload);
    try (exists h0; reflexivity);
    (exists (h0 ++ [{| message := "Fetching properties from Rightmove API";
                       level := INFO |}])%list;
     cbn [params cache history];
     match goal with
     | |- context [fetch_properties ?u0 ?w1] =>
         destruct (fetch_properties u0 w1) as [[ps|e'] w2]
     end;
     [|reflexivity];
     match goal with
     | |- context [save_properties_to_cache ?k ?ps0 ?w3] =>
         destruct (save_properties_to_cache_run k ps0 w3) as (c' & h' & ->)
     end;
     cbn [params cache history]; eexists _, _; reflexivity).
Qed.

(** A search answered by the cache does not go to the network: when the
    entry of the search decodes, [find_properties] returns the listings of
    the entry and leaves the parameters alone, whatever the two network
    functions would do. *)
Theorem find_properties_hit (w : World) (payload : json) (c : Redis)
    (properties : list Property) :
  Cache_get (properties_key (to_url (params w))) (cache w) = (Ok (Some payload), c) ->
  _convert_payload_to_properties payload = Ok properties ->
  fst (find_properties w) = Ok properties /\
  params (snd (find_properties w)) = params w /\
  cache (snd (find_properties w)) = c.
Proof.
  intros Hget Hdecode.
  destruct (find_properties_run w) as [h H]. cbv zeta in H.
  rewrite Hget, Hdecode in H. rewrite H. cbn. auto.
Qed.

(** A failure of the cache does not leave [find_properties].  Whether
    [Cache.get] raises, finds nothing, or returns a payload that
    [_convert_payload_to_properties] rejects, the search returns what the
    fetch from the site returns, its listings or its exception; and the
    write that follows the fetch never raises, so that the listings are
    returned whether or not they could be stored. *)
Theorem find_properties_cache_failures_do_not_propagate (w : World) :
  let u := to_url (params w) in
  let key := properties_key u in
  (exists h,
     let w1 := {| params := params w;
                  cache := snd (Cache_get key (cache w));
                  history := h |} in
     let fetched := fst (find_properties w) = fst (fetch_properties u w1) in
     match Cache_get key (cache w) with
     | (Ok (Some payload), _) =>
         match _convert_payload_to_properties payload with
         | Ok properties => fst (find_properties w) = Ok properties
         | Raise _ => fetched
         end
     | (Ok None, _) => fetched
     | (Raise _, _) => fetched
     end) /\
  (forall (k : string) (properties : list Property) (w0 : World),
     fst (bind (save_properties_to_cache k properties) (fun _ => ret properties) w0)
     = Ok properties).
Proof.
  intros u key. split.
  - destruct (find_properties_run w) as [h H].
    exists h. cbv zeta in *. fold u in H. fold key in H.
    destruct (Cache_get key (cache w)) as [[[payload|]|e] c];
      cbn [snd] in *;
      try destruct (_convert_payload_to_properties payload);
      try (rewrite H; reflexivity);
      (destruct (_fetch_properties _fetch_number_of_properties _fetch_property u _)
         as [[ps|e'] w2];
       [destruct H as (c' & h' & ->) | rewrite H]; reflexivity).
  - intros k properties w0. unfold bind.
    destruct (save_properties_to_cache_run k properties w0) as (c & h & ->).
    reflexivity.
Qed.

Hypothesis fetch_number_frame :
  forall s w0, params (snd (_fetch_number_of_properties s w0)) = params w0.
Hypothesis fetch_property_frame :
  forall s c w0, params (snd (_fetch_property s c w0)) = params w0.

Lemma fetch_pages_frame (u : URL) (indexes : list Z) :
  forall properties w,
  params (snd (fetch_pages _fetch_property u indexes properties w)) = params w.
Proof.
  induction indexes as [|i indexes IH]; intros properties w; [reflexivity|].
  cbn [fetch_pages]. unfold bind.
  pose proof (fetch_property_frame
                (URL_value_page u (Some i) (Some max_properties_per_page))
                (url_purchase_category u) w) as H.
  destruct (_fetch_property _ _ w) as [[page|e] w1]; cbn [snd] in *.
  - rewrite IH. exact H.
  - exact H.
Qed.

Lemma fetch_properties_frame (u : URL) (w : World) :
  params (snd (fetch_properties u w)) = params w.
Proof.
  unfold _fetch_properties, bind.
  pose proof (fetch_number_frame (URL_value u) w) as H.
  destruct (_fetch_number_of_properties (URL_value u) w) as [[c|e] w1];
    cbn [snd] in *.
  - rewrite fetch_pages_frame. exact H.
  - exact H.
Qed.

Lemma find_properties_frame (w : World) :
  params (snd (find_properties w)) = params w.
Proof.
  destruct (find_properties_run w) as [h H]. cbv zeta in H.
  match type of H with
  | match ?found with _ => _ end => destruct found as [ps|]
  end.
  - rewrite H. reflexivity.
  - match type of H with
    | match fetch_properties ?u0 ?w1 with _ => _ end =>
        pose proof (fetch_properties_frame u0 w1) as Hf;
        destruct (fetch_properties u0 w1) as [[ps|e'] w2]
    end; cbn [snd params] in Hf.
    + destruct H as (c' & h' & ->). exact Hf.
    + rewrite H. exact Hf.
Qed.

(** [find_properties] reads the [SearchParameters] object and does not write
    to it (the network functions do not receive it): after the call the
    object is as it was, whether the search hit the cache, fetched, or
    raised; and the key it used is the one of the category the object held. *)
Theorem find_properties_leaves_params (w : World) :
  params (snd (find_properties w)) = params w /\
  url_purchase_category (to_url (params w)) = params_purchase_category (params w).
Proof.
  split; [apply find_properties_frame|].
  unfold to_url. destruct (params_purchase_category (params w)); reflexivity.
Qed.

Variable linear_nd : list (Q * Q) -> list Q -> Q * Q -> option Q.

(** A ranking request over the search engine: when it returns, the caller's
    parameters are on BUY, whatever they were on, and the rental search it
    made in between has left no trace in them. *)
Theorem rank_over_search_engine_ends_on_buy (valuation_params : ValuationParameters)
    (w w' : World) (valuations : list Valuation) :
  rank_properties linear_nd find_properties valuation_params w
    = (Ok valuations, w') ->
  params w' = set_purchase_category BUY (params w).
Proof.
  intros Hrun.
  destruct (rank_properties_run linear_nd find_properties valuation_params w)
    as [h Hcases].
  cbv zeta in Hcases.
  match type of Hcases with
  | match ?found with _ => _ end => destruct found as [vs|]
  end.
  - rewrite Hcases in Hrun. injection Hrun as _ <-. reflexivity.
  - match type of Hcases with
    | match ?run with _ => _ end => destruct run as [[vs|e] w2] eqn:Ecreate
    end.
    + destruct Hcases as (c' & h' & Hcases). rewrite Hcases in Hrun.
      injection Hrun as _ <-. cbn [params].
      rewrite (create_valuations_params linear_nd find_properties _ _ _ _
                 find_properties_frame Ecreate).
      reflexivity.
    + rewrite Hcases in Hrun. discriminate Hrun.
Qed.

End FindProofs.

Lemma find_properties_hit_witness :
  fst (SearchEngine_find_properties failing_site_count example_site_page
         cached_search_world) = Ok example_rentals /\
  params (snd (SearchEngine_find_properties failing_site_count example_site_page
                 cached_search_world)) = params cached_search_world /\
  cache (snd (SearchEngine_find_properties failing_site_count example_site_page
                cached_search_world)) = cache cached_search_world.
Proof.
  apply (find_properties_hit failing_site_count example_site_page
           cached_search_world
           (JStr (_convert_properties_to_payload example_rentals))
           (cache cached_search_world) example_rentals).
  - vm_cast_no_check
      (@eq_refl _ (Ok (Some (JStr (_convert_properties_to_payload example_rentals))),
                   cache cached_search_world)).
  - vm_cast_no_check (@eq_refl _ (Ok example_rentals)).
Defined.

(** Redis is down when the listings are to be stored: they are returned all
    the same. *)
Lemma find_properties_cache_failures_do_not_propagate_witness :
  fst (bind (save_properties_to_cache "k" example_rentals)
         (fun _ => ret example_rentals)
         {| params := example_search;
            cache := {| clock := 0; faults := [true]; keyspace := keyspace empty_redis |};
            history := [] |})
  = Ok example_rentals.
Proof.
  apply (proj2 (find_properties_cache_failures_do_not_propagate
                  example_site_count example_site_page example_world)).
Defined.

Lemma find_properties_leaves_params_witness :
  params (snd (SearchEngine_find_properties example_site_count example_site_page
                 example_world)) = params example_world /\
  url_purchase_category (to_url (params example_world))
  = params_purchase_category (params example_world).
Proof.
  apply (find_properties_leaves_params example_site_count example_site_page
           (fun _ _ => eq_refl) (fun _ _ _ => eq_refl) example_world).
Defined.

Lemma rank_over_search_engine_ends_on_buy_witness :
  params (snd short_site_request) = set_purchase_category BUY (params example_world).
Proof.
  refine (rank_over_search_engine_ends_on_buy example_site_count example_site_page
            (fun _ _ => eq_refl) (fun _ _ _ => eq_refl) outside_hull
            short_mortgage_params example_world (snd short_site_request)
            short_ranked _).
  transitivity (fst short_site_request, snd short_site_request).
  - apply surjective_pairing.
  - apply (f_equal (fun r => (r, snd short_site_request))).
    vm_compute. reflexivity.
Defined.

(* ===================================================================== *)
(** * Proofs: estimators whose bounding box has an area *)
(* ===================================================================== *)









Section BoxProofs.

Variable linear_nd : list (Q * Q) -> list Q -> Q * Q -> option Q.


End BoxProofs.


(* ===================================================================== *)
(** * Proofs: more on the score *)
(* ===================================================================== *)

(** [valuation_params] with another [min_deposit]. *)
Lemma get_score_min_deposit (linear_nd : list (Q * Q) -> list Q -> Q * Q -> option Q)
    (self : Estimator) (p : Property) (v v' : ValuationParameters) :
  max_deposit v' = max_deposit v ->
  mortgage_length v' = mortgage_length v ->
  mortgage_interest_rate v' = mortgage_interest_rate v ->
  investment_increase v' = investment_increase v ->
  investment_deduction v' = investment_deduction v ->
  rent_increase v' = rent_increase v ->
  rent_deduction v' = rent_deduction v ->
  get_score linear_nd self p v' = get_score linear_nd self p v.
Proof.
  intros H1 H2 H3 H4 H5 H6 H7.
  unfold get_score, monthly_rate, payments, principal, net_annual_income, cost.
  rewrite H1, H2, H3, H4, H5, H6, H7. reflexivity.
Qed.

Section ScoreExtras.

Variable linear_nd : list (Q * Q) -> list Q -> Q * Q -> option Q.

Lemma kept_valuations_min_deposit (self : Estimator) (v v' : ValuationParameters)
    (buy_properties : list Property) :
  (forall p, get_score linear_nd self p v' = get_score linear_nd self p v) ->
  kept_valuations linear_nd self v' buy_properties =
  kept_valuations linear_nd self v buy_properties.
Proof.
  intros H. induction buy_properties as [|p ps IH]; [reflexivity|].
  cbn [kept_valuations]. unfold make_valuation. rewrite H, IH. reflexivity.
Qed.

(** The ranking ignores [min_deposit]: two sets of valuation parameters that
    differ in [min_deposit] only give the same ranked list, for any rentals
    and candidates. *)
Theorem ranking_ignores_min_deposit (rent_properties buy_properties : list Property)
    (v v' : ValuationParameters) (w w' : World) :
  max_deposit v' = max_deposit v ->
  mortgage_length v' = mortgage_length v ->
  mortgage_interest_rate v' = mortgage_interest_rate v ->
  investment_increase v' = investment_increase v ->
  investment_deduction v' = investment_deduction v ->
  rent_increase v' = rent_increase v ->
  rent_deduction v' = rent_deduction v ->
  fst (_get_valuation linear_nd rent_properties buy_properties v' w') =
  fst (_get_valuation linear_nd rent_properties buy_properties v w).
Proof.
  intros H1 H2 H3 H4 H5 H6 H7. rewrite !_get_valuation_fst.
  destruct rent_properties as [|r rs]; [reflexivity|].
  destruct buy_properties as [|b bs]; [reflexivity|].
  destruct (build_estimator (r :: rs)) as [self|e]; [|reflexivity].
  cbn [rbind]. rewrite (kept_valuations_min_deposit self v v'); [reflexivity|].
  intros p. apply get_score_min_deposit; assumption.
Qed.

End ScoreExtras.

Lemma ranking_ignores_min_deposit_witness :
  fst (_get_valuation outside_hull example_rentals example_candidates
         {| min_deposit := 12345; max_deposit := 40000; mortgage_length := 25;
            mortgage_interest_rate := 3; investment_increase := 0;
            investment_deduction := 0; rent_increase := 0; rent_deduction := 0 |}
         example_world) =
  fst (_get_valuation outside_hull example_rentals example_candidates
         example_valuation_params example_world).
Proof.
  apply (ranking_ignores_min_deposit outside_hull); reflexivity.
Defined.

(* ===================================================================== *)
(** * Proofs: the application *)
(* ===================================================================== *)

Section ResortProofs.

Context {A : Type}.

(** Sorting a sorted list gives it back. *)
Lemma sorted_id (key : A -> Q) (l : list A) :
  StronglySorted (key_le key) l -> sorted key l = l.
Proof.
  induction 1 as [|x l Hl IH Hx]; [reflexivity|].
  unfold sorted in *. cbn [fold_right]. rewrite IH.
  destruct l as [|y l']; [reflexivity|].
  cbn [insert_by]. inversion Hx as [|? ? Hxy _]; subst.
  unfold key_le in Hxy. apply Qle_bool_iff in Hxy. rewrite Hxy. reflexivity.
Qed.

Lemma StronglySorted_app (R : A -> A -> Prop) (l1 l2 : list A) :
  StronglySorted R l1 -> StronglySorted R l2 ->
  (forall a b, In a l1 -> In b l2 -> R a b) ->
  StronglySorted R (l1 ++ l2).
Proof.
  intros H1 H2 H. induction H1 as [|x l1 Hl IH Hx]; [exact H2|].
  cbn [app]. constructor.
  - apply IH. intros a b Ha Hb. apply H; [right; exact Ha | exact Hb].
  - apply List.Forall_forall. intros b Hb. apply in_app_or in Hb as [Hb | Hb].
    + rewrite List.Forall_forall in Hx. apply Hx, Hb.
    + apply H; [left; reflexivity | exact Hb].
Qed.

Lemma StronglySorted_rev (R : A -> A -> Prop) (l : list A) :
  StronglySorted R l -> StronglySorted (fun a b => R b a) (rev l).
Proof.
  induction 1 as [|x l Hl IH Hx]; [constructor|].
  cbn [rev]. apply StronglySorted_app.
  - exact IH.
  - constructor; [constructor | constructor].
  - intros a b Ha [<- | []]. rewrite List.Forall_forall in Hx.
    apply Hx, in_rev, Ha.
Qed.

(** A list in descending order of [key], in the sense of the sort by the
    negated key, is left as it is by [sort(key=key, reverse=True)]. *)
Lemma sort_reverse_sorted (key : A -> Q) (l : list A) :
  StronglySorted (key_le (fun a => (- key a)%Q)) l -> sort_reverse key l = l.
Proof.
  intros H. unfold sort_reverse. rewrite sorted_id; [apply rev_involutive|].
  apply StronglySorted_rev in H.
  eapply StronglySorted_weaken; [|exact H].
  unfold key_le. intros a b Hab. cbv beta in Hab. lra.
Qed.

End ResortProofs.

Section AppProofs.

Variable linear_nd : list (Q * Q) -> list Q -> Q * Q -> option Q.
Variable find_properties : M (list Property).

Local Abbreviation app_valuations :=
  (get_property_valuations linear_nd find_properties).
Local Abbreviation rank := (rank_properties linear_nd find_properties).

(** The world in which the application calls [rank_properties]. *)
Local Abbreviation entered w :=
  {| params := params w; cache := cache w;
     history := history w ++
       [{| message := "Getting property valuations for search "
                      ++ location_name (params w) ++ " with radius "
                      ++ str_of_Q (radius (params w)) ++ " km";
           level := INFO |}] |}.

Lemma get_property_valuations_run (valuation_params : ValuationParameters) (w : World) :
  match rank valuation_params (entered w) with
  | (Ok valuations, w1) =>
      app_valuations valuation_params w =
      (Ok valuations,
       {| params := params w1; cache := cache w1;
          history := history w1 ++
            [{| message := "Got " ++ str_of_Z (Z.of_nat (length valuations))
                           ++ " property valuations";
                level := INFO |}] |})
  | (Raise e, w1) =>
      app_valuations valuation_params w =
      (Ok [],
       {| params := params w1; cache := cache w1;
          history := history w1 ++
            [{| message := "Failed to get property valuations. Error: " ++ exn_str e;
                level := ERROR |}] |})
  end.
Proof.
  unfold get_property_valuations, bind, try_except, info, error, log, ret.
  cbn [params cache history].
  destruct (rank_properties linear_nd find_properties valuation_params _)
    as [[vs|e] w1]; reflexivity.
Qed.

(** An exception of [rank_properties] never leaves
    [get_property_valuations].  When [rank_properties] returns, the
    application returns the same list; when it raises, whatever the
    exception, the application returns the empty list, and the last entry of
    the log is an ERROR that carries the message of the exception. *)
Theorem rank_exception_never_leaves_app (valuation_params : ValuationParameters)
    (w : World) :
  (forall valuations,
     fst (rank valuation_params (entered w)) = Ok valuations ->
     fst (app_valuations valuation_params w) = Ok valuations) /\
  (forall e,
     fst (rank valuation_params (entered w)) = Raise e ->
     fst (app_valuations valuation_params w) = Ok [] /\
     last (history (snd (app_valuations valuation_params w)))
     = Some {| message := "Failed to get property valuations. Error: " ++ exn_str e;
               level := ERROR |}).
Proof.
  pose proof (get_property_valuations_run valuation_params w) as H.
  destruct (rank_properties linear_nd find_properties valuation_params _)
    as [[vs|e] w1]; rewrite H; cbn [fst snd history].
  - split.
    + intros valuations E. exact E.
    + intros e E. discriminate E.
  - split.
    + intros valuations E. discriminate E.
    + intros e' E. injection E as ->. split; [reflexivity|].
      apply last_snoc.
Qed.

(** What the user gets when the rentals of the area lie on one meridian (a
    single rental listing is the least case): on a cache miss, with a search
    engine that answers and at least one candidate, the request through the
    application returns the empty list, and the log ends with the error of
    Qhull. *)
Theorem meridian_rentals_give_empty_result (valuation_params : ValuationParameters)
    (w : World) (rentals candidates : list Property) (self : Estimator) (lon : Q) :
  keyspace (cache w)
    !! cache_key (to_url (set_purchase_category BUY (params w))) valuation_params
    = None ->
  (forall w0, exists w1,
     find_properties w0 =
     (Ok match params_purchase_category (params w0) with
         | RENT => rentals
         | BUY => candidates
         end, w1)) ->
  build_estimator rentals = Ok self ->
  Forall (fun p => (longitude (geo_location p) == lon)%Q) rentals ->
  candidates <> [] ->
  fst (app_valuations valuation_params w) = Ok [] /\
  last (history (snd (app_valuations valuation_params w)))
  = Some {| message := "Failed to get property valuations. Error: "
                       ++ "QH6154 Qhull precision error: Initial simplex is flat";
            level := ERROR |}.
Proof.
  intros Habsent Hfind Hself Hlon Hbuy.
  assert (Hrank : fst (rank valuation_params (entered w)) =
    Raise (QhullError "QH6154 Qhull precision error: Initial simplex is flat")).
  { destruct (rank_properties_run linear_nd find_properties valuation_params
                (entered w)) as [h Hcases].
    cbv zeta in Hcases. cbn [params cache] in Hcases.
    assert (Hmiss :
      match Cache_get
              (cache_key (to_url (set_purchase_category BUY (params w)))
                         valuation_params) (cache w) with
      | (Ok (Some payload), _) =>
          match _convert_payload_to_valuations payload with
          | Ok valuations => Some valuations
          | Raise _ => None
          end
      | _ => None
      end = None).
    { destruct (Cache_get_absent _ _ Habsent) as [E | [e E]];
        destruct (Cache_get _ (cache w)) as [[[payload|]|e'] c];
        cbn [fst] in E; try discriminate E; reflexivity. }
    rewrite Hmiss in Hcases.
    assert (Hcreate : forall w1,
      fst (create_valuations linear_nd find_properties valuation_params w1) =
      Raise (QhullError "QH6154 Qhull precision error: Initial simplex is flat")).
    { intros w1. unfold create_valuations, bind, info, log, to_rent, to_buy.
      cbn [params cache history].
      match goal with |- context [find_properties ?w0] =>
        destruct (Hfind w0) as [wa ->]
      end.
      cbn [params params_purchase_category set_purchase_category].
      match goal with |- context [find_properties ?w0] =>
        destruct (Hfind w0) as [wb ->]
      end.
      cbn [params params_purchase_category set_purchase_category].
      apply (_get_valuation_same_longitude linear_nd _ _ _ self lon); assumption. }
    match type of Hcases with
    | match create_valuations _ _ _ ?w1 with _ => _ end =>
        pose proof (Hcreate w1) as Hc;
        destruct (create_valuations linear_nd find_properties valuation_params w1)
          as [[vs|e] w2]
    end; cbn [fst] in Hc; [discriminate Hc|].
    rewrite Hcases. exact Hc. }
  pose proof (get_property_valuations_run valuation_params w) as H.
  destruct (rank_properties linear_nd find_properties valuation_params _)
    as [[vs|e] w1]; cbn [fst] in Hrank; [discriminate Hrank|].
  injection Hrank as ->. rewrite H. cbn [fst snd history exn_str].
  split; [reflexivity | apply last_snoc].
Qed.

(** The route sorts what it gets by descending return on investment before
    it shows the first hundred.  On a list that [_get_valuation] has just
    computed this sort changes nothing: the order shown is the order of the
    ranking, ties included. *)
Theorem route_sort_keeps_ranking (rent_properties buy_properties : list Property)
    (valuation_params : ValuationParameters) (w : World) (valuations : list Valuation) :
  fst (_get_valuation linear_nd rent_properties buy_properties valuation_params w)
    = Ok valuations ->
  sort_reverse return_on_investment valuations = valuations /\
  displayed_valuations valuations = firstn 100 valuations.
Proof.
  intros H.
  assert (Hs : sort_reverse return_on_investment valuations = valuations).
  { apply sort_reverse_sorted. rewrite _get_valuation_fst in H.
    assert (E : valuations = [] \/ exists kept, valuations = sorted ranking_key kept).
    { destruct rent_properties as [|r rs]; [injection H as <-; auto|].
      destruct buy_properties as [|b bs]; [injection H as <-; auto|].
      destruct (build_estimator (r :: rs)) as [self|e]; [|discriminate H].
      cbn [rbind] in H.
      destruct (kept_valuations linear_nd self valuation_params (b :: bs))
        as [kept|e]; [|discriminate H].
      cbn [rbind] in H. injection H as <-. eauto. }
    destruct E as [-> | [kept ->]]; [constructor|].
    apply (sorted_StronglySorted ranking_key). }
  split; [exact Hs|]. unfold displayed_valuations. rewrite Hs. reflexivity.
Qed.

End AppProofs.

(** The site is down: the page shows no property, and the log says why. *)
Lemma rank_exception_never_leaves_app_witness :
  fst site_down_app_request = Ok [] /\
  last (history (snd site_down_app_request))
  = Some {| message := "Failed to get property valuations. Error: "
                       ++ exn_str (HTTPError "503 Server Error");
            level := ERROR |}.
Proof.
  refine (proj2 (rank_exception_never_leaves_app outside_hull
            (SearchEngine_find_properties failing_site_count example_site_page)
            example_valuation_params example_world)
            (HTTPError "503 Server Error") _).
  vm_compute. reflexivity.
Defined.

(** One rental listing on the market: the page shows no property. *)
Lemma meridian_rentals_give_empty_result_witness :
  fst single_rental_app_request = Ok [] /\
  last (history (snd single_rental_app_request))
  = Some {| message := "Failed to get property valuations. Error: "
                       ++ "QH6154 Qhull precision error: Initial simplex is flat";
            level := ERROR |}.
Proof.
  destruct (build_estimator [listing "r1" 1000 0 0 RENT]) as [self|e] eqn:E;
    [|vm_compute in E; discriminate E].
  refine (meridian_rentals_give_empty_result outside_hull
            (example_find [listing "r1" 1000 0 0 RENT] example_candidates)
            example_valuation_params example_world
            [listing "r1" 1000 0 0 RENT] example_candidates self 0
            _ _ E _ _).
  - reflexivity.
  - intros w0. exists w0. reflexivity.
  - constructor; [reflexivity | constructor].
  - discriminate.
Defined.

Lemma route_sort_keeps_ranking_witness :
  sort_reverse return_on_investment short_ranked = short_ranked /\
  displayed_valuations short_ranked = firstn 100 short_ranked.
Proof.
  refine (route_sort_keeps_ranking outside_hull example_rentals example_candidates
            short_mortgage_params example_world short_ranked _).
  vm_compute. reflexivity.
Defined.

(* ===================================================================== *)
(** * Proofs: parameters no candidate can be scored with *)
(* ===================================================================== *)

Section EdgeProofs.

Variable linear_nd : list (Q * Q) -> list Q -> Q * Q -> option Q.

(** The loop over candidates that all fail with the same [ValueError]: it
    keeps what it had and logs one warning per candidate, in their order. *)
Lemma value_properties_all_dropped (self : Estimator) (v : ValuationParameters)
    (reason : string) (buy_properties : list Property) :
  (forall p, make_valuation linear_nd self v p = Raise (ValueError reason)) ->
  forall (valuations : list Valuation) (w : World),
  value_properties linear_nd self v buy_properties valuations w =
  (Ok valuations,
   {| params := params w; cache := cache w;
      history :=
        (history w ++
         map (fun p =>
                {| message := "Failed to get score for property: "
                              ++ display_address p ++ ". Error: " ++ reason;
                   level := WARNING |}) buy_properties)%list |}).
Proof.
  intros H. induction buy_properties as [|p ps IH]; intros valuations w.
  - cbn. rewrite app_nil_r. destruct w; reflexivity.
  - cbn [value_properties map].
    unfold bind, try_except_ValueError, try_except, lift, ret, raise, warning, log.
    rewrite (H p). cbn [is_ValueError exn_str params cache history fst snd].
    rewrite IH. cbn [params cache history]. rewrite <- app_assoc. reflexivity.
Qed.

(** With a mortgage rate of zero no candidate gets a score.  Where the
    estimate of a candidate exists, [get_score] raises the degenerate-rate
    error for it; each candidate in turn is dropped with a warning that
    names it, and [_get_valuation] returns the empty list however many
    candidates there are. *)
Theorem zero_rate_drops_every_candidate (rent_properties buy_properties : list Property)
    (v : ValuationParameters) (self : Estimator) (w : World) :
  build_estimator rent_properties = Ok self ->
  (forall x y, exists rent, get_height linear_nd self x y = Ok rent) ->
  (mortgage_interest_rate v == 0)%Q ->
  (forall candidate,
     get_score linear_nd self candidate v =
     Raise (ValueError "Mortgage percentage cannot be zero")) /\
  fst (_get_valuation linear_nd rent_properties buy_properties v w) = Ok [] /\
  history (snd (_get_valuation linear_nd rent_properties buy_properties v w)) =
  (history w ++
   map (fun candidate =>
          {| message := "Failed to get score for property: "
                        ++ display_address candidate ++ ". Error: "
                        ++ "Mortgage percentage cannot be zero";
             level := WARNING |}) buy_properties)%list.
Proof.
  intros Hself Hheight Hrate.
  assert (Hscore : forall candidate,
            get_score linear_nd self candidate v =
            Raise (ValueError "Mortgage percentage cannot be zero")).
  { intros p.
    destruct (Hheight (longitude (geo_location p)) (latitude (geo_location p)))
      as [rent Hrent].
    rewrite (get_score_unfold _ _ _ _ _ Hrent), (monthly_rate_zero _ Hrate).
    reflexivity. }
  assert (Hmake : forall p,
            make_valuation linear_nd self v p =
            Raise (ValueError "Mortgage percentage cannot be zero")).
  { intros p. unfold make_valuation.
    destruct (Hheight (longitude (geo_location p)) (latitude (geo_location p)))
      as [rent ->].
    cbn [rbind]. rewrite Hscore. reflexivity. }
  split; [exact Hscore|].
  destruct rent_properties as [|r rs]; [vm_compute in Hself; discriminate Hself|].
  destruct buy_properties as [|b bs].
  { cbn. rewrite app_nil_r. split; reflexivity. }
  unfold _get_valuation. cbn [length Nat.eqb orb]. unfold bind, lift, ret.
  rewrite Hself.
  rewrite (value_properties_all_dropped self v _ (b :: bs) Hmake).
  cbn [fst snd history]. split; reflexivity.
Qed.


End EdgeProofs.

(** The example with a rate of zero: three candidates, three warnings, no
    valuation. *)
Lemma zero_rate_drops_every_candidate_witness :
  fst (_get_valuation outside_hull example_rentals example_candidates
         zero_rate_params example_world) = Ok [] /\
  history (snd (_get_valuation outside_hull example_rentals example_candidates
                  zero_rate_params example_world)) =
  (history example_world ++
   map (fun candidate =>
          {| message := "Failed to get score for property: "
                        ++ display_address candidate ++ ". Error: "
                        ++ "Mortgage percentage cannot be zero";
             level := WARNING |}) example_candidates)%list.
Proof.
  destruct (build_estimator example_rentals) as [self|e] eqn:E;
    [|vm_compute in E; discriminate E].
  refine (proj2 (zero_rate_drops_every_candidate outside_hull example_rentals
                   example_candidates zero_rate_params self example_world E _ _)).
  - intros x y. eexists.
    apply get_height_spanning; vm_compute in E; injection E as <-; reflexivity.
  - reflexivity.
Defined.


